(** * LIS2MDL magnetometer driver (Drivers/EM7180/Src/lis2mdl.c)

    A shallow embedding of the driver and the properties of its register
    traffic, raw-data decoding, calibration pass and self test.

    Conventions of the embedding:
    - C integers are [Z] with the conversions to [uint8_t], [int16_t] and
      [int32_t] written out ([u8], [to_int16], [to_int32]);
    - [float] is IEEE 754 binary32 and [double] is binary64, both evaluated
      with the Standard Library's [SpecFloat] operations (round to nearest
      even);
    - the bus ([Wire.transfer]), [delay], [pinMode] and [Serial] are the
      external collaborators: every call is recorded in the [log] of the
      world, and the device answering on the bus is a parameter;
    - the register addresses come from lis2mdl.h, which is not part of the
      sources; they are parameters as well ([RegisterMap]). *)

From Stdlib Require Import String.
From Stdlib Require Import ZArith List Lia Bool Permutation.
From Stdlib Require Import Floats.SpecFloat.
Import ListNotations.
Open Scope Z_scope.

(** ** Machine integers *)

Definition u8 (v : Z) : Z := v mod 256.

(* Conversion of an [int] to [int16_t]: reduction modulo 2^16 into the
   signed range, as GCC defines it. *)
Definition to_int16 (v : Z) : Z := (v + 32768) mod 65536 - 32768.

Definition to_int32 (v : Z) : Z := (v + 2147483648) mod 4294967296 - 2147483648.

(* [+], [-] and [/] on [int] operands (32 bits on the target);
   C division truncates toward zero. *)
Definition int_add (a b : Z) : Z := to_int32 (a + b).
Definition int_sub (a b : Z) : Z := to_int32 (a - b).
Definition int_div (a b : Z) : Z := to_int32 (Z.quot a b).

(** ** Floating point *)

Module F32.
Definition prec : Z := 24.
Definition emax : Z := 128.
Definition of_int (n : Z) : spec_float := binary_normalize prec emax n 0 false.
Definition sub : spec_float -> spec_float -> spec_float := SFsub prec emax.
Definition mul : spec_float -> spec_float -> spec_float := SFmul prec emax.
Definition div : spec_float -> spec_float -> spec_float := SFdiv prec emax.
End F32.

Module F64.
Definition prec : Z := 53.
Definition emax : Z := 1024.
Definition of_int (n : Z) : spec_float := binary_normalize prec emax n 0 false.
(* Promotion of a [float] operand to [double]: the value is kept, the
   mantissa is realigned to 53 bits. *)
Definition of_float (x : spec_float) : spec_float :=
  match x with
  | S754_finite s m e => binary_round prec emax s m e
  | _ => x
  end.
Definition mul : spec_float -> spec_float -> spec_float := SFmul prec emax.
End F64.

Definition is_finite (x : spec_float) : bool :=
  match x with
  | S754_zero _ | S754_finite _ _ _ => true
  | S754_infinity _ | S754_nan => false
  end.

(* The float x is the integer n: mantissa * 2^exponent = n. *)
Definition represents (x : spec_float) (n : Z) : Prop :=
  match x with
  | S754_zero _ => n = 0
  | S754_finite s m e =>
      e <= 0 /\ n * 2 ^ (- e) = if s then - Zpos m else Zpos m
  | _ => False
  end.

(* The literals of the source. *)
Definition lit_0_0015f : spec_float := S754_finite false 12884902 (-33).
Definition lit_50_0f : spec_float := F32.of_int 50.
Definition lit_3_0f : spec_float := F32.of_int 3.
Definition lit_1000_0 : spec_float := F64.of_int 1000.

(** ** Arrays of three elements, indexed by the axis number *)

(* The indices 0, 1 and 2. *)
Inductive axis := AxisX | AxisY | AxisZ.

Definition axes : list axis := [AxisX; AxisY; AxisZ].

Record arr3 (A : Type) := mk3 { a0 : A; a1 : A; a2 : A }.
Arguments mk3 {A} _ _ _.
Arguments a0 {A} _.
Arguments a1 {A} _.
Arguments a2 {A} _.

Definition get {A} (v : arr3 A) (jj : axis) : A :=
  match jj with AxisX => a0 v | AxisY => a1 v | AxisZ => a2 v end.

Definition set {A} (v : arr3 A) (jj : axis) (x : A) : arr3 A :=
  match jj with
  | AxisX => mk3 x (a1 v) (a2 v)
  | AxisY => mk3 (a0 v) x (a2 v)
  | AxisZ => mk3 (a0 v) (a1 v) x
  end.

(** ** The world the driver runs in *)

Inductive event :=
| EvPinMode (pin : Z)
| EvTransfer (address : Z) (tx : list Z) (rx_count : nat)
| EvDelay (ms : Z)
| EvPrint (s : string)
| EvPrintln (s : string)
| EvPrintNum (d : spec_float)
| EvPrintlnNum (d : spec_float).

(* The device on the bus: given the address, the bytes sent and the number
   of bytes asked for, it answers and moves to its next state. *)
Class WireBus (D : Type) := Wire_respond : Z -> list Z -> nat -> D -> list Z * D.

(* The register addresses of lis2mdl.h. *)
Class RegisterMap := {
  LIS2MDL_ADDRESS : Z;
  LIS2MDL_WHO_AM_I : Z;
  LIS2MDL_CFG_REG_A : Z;
  LIS2MDL_CFG_REG_B : Z;
  LIS2MDL_CFG_REG_C : Z;
  LIS2MDL_STATUS_REG : Z;
  LIS2MDL_OUTX_L_REG : Z;
  LIS2MDL_TEMP_OUT_L_REG : Z
}.

Record world (D : Type) := mkWorld {
  dev : D;                 (* the device behind the bus *)
  log : list event;        (* calls to the collaborators, oldest first *)
  stray : list Z;          (* bytes stored past the end of a receive buffer *)
  _intPin : Z;             (* static uint8_t _intPin *)
  _mRes : spec_float       (* static float _mRes *)
}.
Arguments mkWorld {D} _ _ _ _ _.
Arguments dev {D} _.
Arguments log {D} _.
Arguments stray {D} _.
Arguments _intPin {D} _.
Arguments _mRes {D} _.

Definition M (D A : Type) : Type := world D -> A * world D.

Definition ret {D A} (a : A) : M D A := fun w => (a, w).

Definition bind {D A B} (m : M D A) (f : A -> M D B) : M D B :=
  fun w => let (a, w') := m w in f a w'.

Notation "x <- m ;; k" := (bind m (fun x => k))
  (at level 61, m at next level, right associativity).
Notation "m ;;; k" := (bind m (fun _ => k))
  (at level 61, right associativity).

Definition emit {D} (e : event) : M D unit :=
  fun w => (tt, mkWorld (dev w) (log w ++ [e]) (stray w) (_intPin w) (_mRes w)).

(* for (int ii = 0; ii < n; ii++) body, with the variables the body updates
   threaded through. *)
Fixpoint for_loop {D S} (n : nat) (body : S -> M D S) (s : S) : M D S :=
  match n with
  | O => ret s
  | Datatypes.S k => s' <- body s ;; for_loop k body s'
  end.

(** *** Receive buffers *)

(* The i-th byte the device puts on the bus. *)
Definition rx_byte (resp : list Z) (i : nat) : Z := u8 (nth i resp 0).

Definition received (resp : list Z) (count : nat) : list Z :=
  map (rx_byte resp) (seq 0 count).

(* Storing [bs] from the start of the array [dest]: the cells of [dest] that
   exist are overwritten, the remaining bytes land behind the array. *)
Definition store_bytes (dest bs : list Z) : list Z * list Z :=
  (firstn (length dest) bs ++ skipn (length bs) dest, skipn (length dest) bs).

(** *** Collaborators *)

Section Collaborators.
Context {D : Type} `{WireBus D}.

Definition pinMode (pin : Z) : M D unit := emit (EvPinMode pin).
Definition delay (ms : Z) : M D unit := emit (EvDelay ms).
Definition Serial_print (s : string) : M D unit := emit (EvPrint s).
Definition Serial_println (s : string) : M D unit := emit (EvPrintln s).
Definition Serial_print_num (d : spec_float) : M D unit := emit (EvPrintNum d).
Definition Serial_println_num (d : spec_float) : M D unit := emit (EvPrintlnNum d).

(* Wire.transfer(address, tx, tx_len, rx, rx_count): returns the receive
   buffer after the transfer. *)
Definition Wire_transfer (address : Z) (tx : list Z) (rx : list Z)
    (rx_count : nat) : M D (list Z) :=
  fun w =>
    let (resp, d') := Wire_respond address tx rx_count (dev w) in
    let (rx', over) := store_bytes rx (received resp rx_count) in
    (rx', mkWorld d' (log w ++ [EvTransfer address tx rx_count])
                  (stray w ++ over) (_intPin w) (_mRes w)).
End Collaborators.

(** ** The driver *)

Section Driver.
Context {D : Type} `{WireBus D} `{RegisterMap}.

(* uint8_t buf[n], not initialised: every cell the driver later reads is
   written by a transfer first. *)
Definition uninit (n : nat) : list Z := repeat 0 n.

Definition lis2mdl_write_byte (address subAddress data : Z) : M D unit :=
  let temp := [u8 subAddress; u8 data] in
  Wire_transfer (u8 address) temp [] 0 ;;; ret tt.

Definition lis2mdl_read_byte (address subAddress : Z) : M D Z :=
  temp <- Wire_transfer (u8 address) [u8 subAddress] (uninit 1) 1 ;;
  ret (nth 0 temp 0).

Definition lis2mdl_read (address subAddress : Z) (count : nat)
    (dest : list Z) : M D (list Z) :=
  Wire_transfer (u8 address) [u8 subAddress] dest count.

(** Modelled from the spec: [lis2mdl_read_bytes] is called by the source
    but defined neither in lis2mdl.c nor in a file of the sources; it is
    the multi-byte register read of the bus access shim,
    readRegisters(addr, count), with the parameters of [lis2mdl_read]. *)
Definition lis2mdl_read_bytes (address subAddress : Z) (count : nat)
    (dest : list Z) : M D (list Z) :=
  lis2mdl_read address subAddress count dest.

Definition lis2mdl_new (pin : Z) : M D unit :=
  pinMode (u8 pin) ;;;
  fun w => (tt, mkWorld (dev w) (log w) (stray w) (u8 pin) (_mRes w)).

Definition lis2mdl_chip_id_get : M D Z :=
  c <- lis2mdl_read_byte LIS2MDL_ADDRESS LIS2MDL_WHO_AM_I ;;
  ret c.

Definition lis2mdl_reset : M D unit :=
  temp <- lis2mdl_read_byte LIS2MDL_ADDRESS LIS2MDL_CFG_REG_A ;;
  lis2mdl_write_byte LIS2MDL_ADDRESS LIS2MDL_CFG_REG_A (Z.lor temp 0x20) ;;;
  delay 1 ;;;
  lis2mdl_write_byte LIS2MDL_ADDRESS LIS2MDL_CFG_REG_A (Z.lor temp 0x40) ;;;
  delay 100.

Definition lis2mdl_init (MODR : Z) : M D unit :=
  lis2mdl_write_byte LIS2MDL_ADDRESS LIS2MDL_CFG_REG_A
    (Z.lor 0x80 (Z.shiftl (u8 MODR) 2)) ;;;
  lis2mdl_write_byte LIS2MDL_ADDRESS LIS2MDL_CFG_REG_B 0x01 ;;;
  lis2mdl_write_byte LIS2MDL_ADDRESS LIS2MDL_CFG_REG_C (Z.lor 0x01 0x10).

Definition lis2mdl_status : M D Z :=
  temp <- lis2mdl_read_byte LIS2MDL_ADDRESS LIS2MDL_STATUS_REG ;;
  ret temp.

(* ((int16_t) hi << 8) | lo, stored in an int16_t. *)
Definition msb_lsb (hi lo : Z) : Z :=
  to_int16 (Z.lor (Z.shiftl (to_int16 hi) 8) lo).

(* uint8_t rawData[6] *)
Definition rawData_size : nat := 6.

Definition lis2mdl_data_get : M D (arr3 Z) :=
  rawData <- lis2mdl_read_bytes LIS2MDL_ADDRESS
               (Z.lor 0x80 LIS2MDL_OUTX_L_REG) 8 (uninit rawData_size) ;;
  ret (mk3 (msb_lsb (nth 1 rawData 0) (nth 0 rawData 0))
           (msb_lsb (nth 3 rawData 0) (nth 2 rawData 0))
           (msb_lsb (nth 5 rawData 0) (nth 4 rawData 0))).

Definition lis2mdl_temp_get : M D Z :=
  rawData <- lis2mdl_read_bytes LIS2MDL_ADDRESS
               (Z.lor 0x80 LIS2MDL_TEMP_OUT_L_REG) 2 (uninit 2) ;;
  let temp := msb_lsb (nth 1 rawData 0) (nth 0 rawData 0) in
  ret temp.
End Driver.

(** ** Calibration and self test *)

Section Engines.
Context {D : Type} `{WireBus D} `{RegisterMap}.

(* The two tests of the inner loop, for the axis jj. *)
Definition extrema_step (mag_temp : arr3 Z) (st : arr3 Z * arr3 Z)
    (jj : axis) : arr3 Z * arr3 Z :=
  let (mag_max, mag_min) := st in
  let mag_max :=
    if get mag_temp jj >? get mag_max jj
    then set mag_max jj (get mag_temp jj) else mag_max in
  let mag_min :=
    if get mag_temp jj <? get mag_min jj
    then set mag_min jj (get mag_temp jj) else mag_min in
  (mag_max, mag_min).

(* for (int jj = 0; jj < 3; jj++) *)
Definition extrema_update (st : arr3 Z * arr3 Z) (mag_temp : arr3 Z)
    : arr3 Z * arr3 Z :=
  fold_left (extrema_step mag_temp) axes st.

Definition mag_max_init : arr3 Z := mk3 (-32767) (-32767) (-32767).
Definition mag_min_init : arr3 Z := mk3 32767 32767 32767.

(* One iteration of the sampling loop of lis2mdl_offset_bias. *)
Definition offset_bias_body (st : arr3 Z * arr3 Z)
    : M D (arr3 Z * arr3 Z) :=
  mag_temp <- lis2mdl_data_get ;;
  let st' := extrema_update st mag_temp in
  delay 12 ;;;
  ret st'.

(* The hard-iron part, lines 121 to 129. *)
Definition hard_iron (mag_max mag_min : arr3 Z) : arr3 spec_float :=
  let _mRes := lit_0_0015f in
  let mag_bias :=
    mk3 (int_div (int_add (a0 mag_max) (a0 mag_min)) 2)
        (int_div (int_add (a1 mag_max) (a1 mag_min)) 2)
        (int_div (int_add (a2 mag_max) (a2 mag_min)) 2) in
  mk3 (F32.mul (F32.of_int (a0 mag_bias)) _mRes)
      (F32.mul (F32.of_int (a1 mag_bias)) _mRes)
      (F32.mul (F32.of_int (a2 mag_bias)) _mRes).

(* int32_t mag_scale[3], lines 132 to 134. *)
Definition scale_basis (mag_max mag_min : arr3 Z) : arr3 Z :=
  mk3 (int_div (int_sub (a0 mag_max) (a0 mag_min)) 2)
      (int_div (int_sub (a1 mag_max) (a1 mag_min)) 2)
      (int_div (int_sub (a2 mag_max) (a2 mag_min)) 2).

(* float avg_rad, lines 136 and 137. *)
Definition average_radius (mag_scale : arr3 Z) : spec_float :=
  let avg_rad :=
    F32.of_int (int_add (int_add (a0 mag_scale) (a1 mag_scale)) (a2 mag_scale)) in
  F32.div avg_rad lit_3_0f.

(* The soft-iron part, lines 132 to 141. *)
Definition soft_iron (mag_max mag_min : arr3 Z) : arr3 spec_float :=
  let mag_scale := scale_basis mag_max mag_min in
  let avg_rad := average_radius mag_scale in
  mk3 (F32.div avg_rad (F32.of_int (a0 mag_scale)))
      (F32.div avg_rad (F32.of_int (a1 mag_scale)))
      (F32.div avg_rad (F32.of_int (a2 mag_scale))).

(* Returns (dest1, dest2). *)
Definition lis2mdl_offset_bias : M D (arr3 spec_float * arr3 spec_float) :=
  Serial_println
    "Calculate mag offset bias: move all around to sample the complete response surface!" ;;;
  delay 4000 ;;;
  st <- for_loop 4000 offset_bias_body (mag_max_init, mag_min_init) ;;
  let (mag_max, mag_min) := st in
  let dest1 := hard_iron mag_max mag_min in
  let dest2 := soft_iron mag_max mag_min in
  Serial_println "Mag Calibration done!" ;;;
  ret (dest1, dest2).

(* One iteration of either sampling loop of lis2mdl_self_test. *)
Definition self_test_body (sum : arr3 Z) : M D (arr3 Z) :=
  temp <- lis2mdl_data_get ;;
  let sum :=
    mk3 (int_add (a0 sum) (a0 temp))
        (int_add (a1 sum) (a1 temp))
        (int_add (a2 sum) (a2 temp)) in
  delay 50 ;;;
  ret sum.

(* (float) sum[i] / 50.0f for the three axes. *)
Definition mean50 (sum : arr3 Z) : arr3 spec_float :=
  mk3 (F32.div (F32.of_int (a0 sum)) lit_50_0f)
      (F32.div (F32.of_int (a1 sum)) lit_50_0f)
      (F32.div (F32.of_int (a2 sum)) lit_50_0f).

(* (magTest[i] - magNom[i]) * _mRes * 1000.0: the first product is a float,
   the second a double. *)
Definition delta_mG (magTest magNom : arr3 spec_float) (i : axis) : spec_float :=
  let _mRes := lit_0_0015f in
  F64.mul (F64.of_float (F32.mul (F32.sub (get magTest i) (get magNom i)) _mRes))
          lit_1000_0.

Definition lis2mdl_self_test : M D unit :=
  sum <- for_loop 50 self_test_body (mk3 0 0 0) ;;
  let magNom := mean50 sum in
  c <- lis2mdl_read_byte LIS2MDL_ADDRESS LIS2MDL_CFG_REG_C ;;
  lis2mdl_write_byte LIS2MDL_ADDRESS LIS2MDL_CFG_REG_C (Z.lor c 0x02) ;;;
  delay 100 ;;;
  sum <- for_loop 50 self_test_body (mk3 0 0 0) ;;
  let magTest := mean50 sum in
  lis2mdl_write_byte LIS2MDL_ADDRESS LIS2MDL_CFG_REG_C c ;;;
  delay 100 ;;;
  Serial_println "Mag Self Test:" ;;;
  Serial_print "Mx results:" ;;;
  Serial_print_num (delta_mG magTest magNom AxisX) ;;;
  Serial_println " mG" ;;;
  Serial_print "My results:" ;;;
  Serial_println_num (delta_mG magTest magNom AxisX) ;;;
  Serial_print "Mz results:" ;;;
  Serial_println_num (delta_mG magTest magNom AxisY) ;;;
  Serial_println "Should be between 15 and 500 mG" ;;;
  delay 2000.
End Engines.

(** ** A scripted device

    A register file and a queue of output-register contents: a write stores
    the byte, a single-register read returns the stored byte, and every
    auto-increment read (bit 7 of the subaddress set) takes the next entry of
    the queue. *)

Record script := mkScript {
  regs : Z -> Z;
  feed : list (list Z)
}.

Definition script_respond (address : Z) (tx : list Z) (rx_count : nat)
    (d : script) : list Z * script :=
  match tx with
  | [sub; data] =>
      ([], mkScript (fun r => if r =? sub then data else regs d r) (feed d))
  | [sub] =>
      if Z.testbit sub 7
      then (hd [] (feed d), mkScript (regs d) (tl (feed d)))
      else ([regs d sub], d)
  | _ => ([], d)
  end.

#[export] Instance script_bus : WireBus script := script_respond.

(* The addresses of the LIS2MDL data sheet, to run the driver on examples. *)
Definition datasheet_map : RegisterMap := {|
  LIS2MDL_ADDRESS := 0x1E;
  LIS2MDL_WHO_AM_I := 0x4F;
  LIS2MDL_CFG_REG_A := 0x60;
  LIS2MDL_CFG_REG_B := 0x61;
  LIS2MDL_CFG_REG_C := 0x62;
  LIS2MDL_STATUS_REG := 0x67;
  LIS2MDL_OUTX_L_REG := 0x68;
  LIS2MDL_TEMP_OUT_L_REG := 0x6E
|}.

Definition start (d : script) : world script :=
  mkWorld d [] [] 0 (S754_zero false).

(* The six output bytes of a sample, low byte first, and two trailing bytes. *)
Definition lo_hi (v : Z) : list Z := [v mod 256; (v / 256) mod 256].
Definition burst_of (x y z : Z) : list Z :=
  lo_hi x ++ lo_hi y ++ lo_hi z ++ [0xFF; 0xFF].

(** ** Vocabulary of the properties *)

(* A signed 16-bit value from its two bytes, low byte first. *)
Definition le_int16 (lo hi : Z) : Z :=
  let v := lo + 256 * hi in
  if v <? 32768 then v else v - 65536.

Definition is_byte (b : Z) : Prop := 0 <= b < 256.

Definition is_int16 (v : Z) : Prop := -32768 <= v <= 32767.

Definition sample_of (b : list Z) : arr3 Z :=
  mk3 (le_int16 (nth 0 b 0) (nth 1 b 0))
      (le_int16 (nth 2 b 0) (nth 3 b 0))
      (le_int16 (nth 4 b 0) (nth 5 b 0)).

(* A register write is the two-byte transfer of lis2mdl_write_byte. *)
Definition is_write (e : event) : bool :=
  match e with
  | EvTransfer _ [_; _] _ => true
  | _ => false
  end.

Definition is_transfer (e : event) : bool :=
  match e with
  | EvTransfer _ _ _ => true
  | _ => false
  end.

Definition bus_traffic (l : list event) : list event := filter is_transfer l.

(* The largest and the smallest value of an axis among the samples, from the
   values the extrema start with. *)
Definition axis_max (samples : list (arr3 Z)) (jj : axis) : Z :=
  fold_left Z.max (map (fun s => get s jj) samples) (-32767).

Definition axis_min (samples : list (arr3 Z)) (jj : axis) : Z :=
  fold_left Z.min (map (fun s => get s jj) samples) 32767.

Definition axis_sum (samples : list (arr3 Z)) (jj : axis) : Z :=
  fold_left Z.add (map (fun s => get s jj) samples) 0.

(* Hard-iron bias in counts: the midpoint of the extrema, truncated toward
   zero. *)
Definition bias_counts (samples : list (arr3 Z)) (jj : axis) : Z :=
  Z.quot (axis_max samples jj + axis_min samples jj) 2.

(* Soft-iron scale basis in counts. *)
Definition half_range (samples : list (arr3 Z)) (jj : axis) : Z :=
  Z.quot (axis_max samples jj - axis_min samples jj) 2.

(* The mean of the three scale bases as a float. *)
Definition mean_radius (samples : list (arr3 Z)) : spec_float :=
  F32.div
    (F32.of_int (half_range samples AxisX + half_range samples AxisY
                 + half_range samples AxisZ))
    (F32.of_int 3).

Definition decimal_f32 (num den : Z) : spec_float :=
  F32.div (F32.of_int num) (F32.of_int den).

(* The three += of a self-test iteration. *)
Definition add_sample (sum temp : arr3 Z) : arr3 Z :=
  mk3 (int_add (a0 sum) (a0 temp))
      (int_add (a1 sum) (a1 temp))
      (int_add (a2 sum) (a2 temp)).

Definition sums (l : list (arr3 Z)) : arr3 Z :=
  mk3 (axis_sum l AxisX) (axis_sum l AxisY) (axis_sum l AxisZ).

(* The delta of one axis from the samples of that axis in the two passes. *)
Definition axis_delta (baseline excited : list (arr3 Z)) (jj : axis)
    : spec_float :=
  delta_mG (mean50 (sums excited)) (mean50 (sums baseline)) jj.

(* The number printed right after the label, if any. *)
Fixpoint reported (label : string) (l : list event) : option spec_float :=
  match l with
  | EvPrint s :: ((EvPrintNum d | EvPrintlnNum d) :: _) as rest =>
      if String.eqb s label then Some d else reported label rest
  | _ :: rest => reported label rest
  | [] => None
  end.

Section BusView.
Context {D : Type} `{WireBus D} `{RegisterMap}.

(* The transfer lis2mdl_data_get issues. *)
Definition outx_event : event :=
  EvTransfer (u8 LIS2MDL_ADDRESS) [u8 (Z.lor 0x80 LIS2MDL_OUTX_L_REG)] 8.

(* The eight bytes received by a read of the output registers, and the
   device after it. *)
Definition outx_read (d : D) : list Z * D :=
  let r := Wire_respond (u8 LIS2MDL_ADDRESS)
             [u8 (Z.lor 0x80 LIS2MDL_OUTX_L_REG)] 8 d in
  (received (fst r) 8, snd r).

Fixpoint bursts (n : nat) (d : D) : list (list Z) :=
  match n with
  | O => []
  | S k => fst (outx_read d) :: bursts k (snd (outx_read d))
  end.

Fixpoint dev_after_reads (n : nat) (d : D) : D :=
  match n with
  | O => d
  | S k => dev_after_reads k (snd (outx_read d))
  end.

(* The samples a pass of n reads decodes. *)
Definition samples (n : nat) (d : D) : list (arr3 Z) :=
  map sample_of (bursts n d).

(* The events of a pass of n reads spaced by ms. *)
Definition pass_events (n : nat) (ms : Z) : list event :=
  concat (repeat [outx_event; EvDelay ms] n).

(* The byte a read of the register sub returns, and the device after. *)
Definition reg_read (sub : Z) (d : D) : Z * D :=
  let r := Wire_respond (u8 LIS2MDL_ADDRESS) [u8 sub] 1 d in
  (rx_byte (fst r) 0, snd r).

Definition reg_write (sub data : Z) (d : D) : D :=
  snd (Wire_respond (u8 LIS2MDL_ADDRESS) [u8 sub; u8 data] 0 d).

Definition read_event (sub : Z) : event :=
  EvTransfer (u8 LIS2MDL_ADDRESS) [u8 sub] 1.

Definition write_event (sub data : Z) : event :=
  EvTransfer (u8 LIS2MDL_ADDRESS) [u8 sub; u8 data] 0.

(* Everything lis2mdl_offset_bias asks of its collaborators. *)
Definition calibration_events : list event :=
  [EvPrintln
     "Calculate mag offset bias: move all around to sample the complete response surface!";
   EvDelay 4000]
  ++ pass_events 4000 12
  ++ [EvPrintln "Mag Calibration done!"].

(* What lis2mdl_self_test prints, given the three numbers. *)
Definition report_events (mx my mz : spec_float) : list event :=
  [EvPrintln "Mag Self Test:";
   EvPrint "Mx results:"; EvPrintNum mx; EvPrintln " mG";
   EvPrint "My results:"; EvPrintlnNum my;
   EvPrint "Mz results:"; EvPrintlnNum mz;
   EvPrintln "Should be between 15 and 500 mG";
   EvDelay 2000].

(* The stations of lis2mdl_self_test, from the device it starts with: the
   byte c read from the control register after the baseline pass, the
   device when the excited pass starts, and the device at the end. *)
Definition self_test_c (d : D) : Z :=
  fst (reg_read LIS2MDL_CFG_REG_C (dev_after_reads 50 d)).

Definition self_test_excited (d : D) : D :=
  reg_write LIS2MDL_CFG_REG_C (Z.lor (self_test_c d) 0x02)
    (snd (reg_read LIS2MDL_CFG_REG_C (dev_after_reads 50 d))).

Definition self_test_final (d : D) : D :=
  reg_write LIS2MDL_CFG_REG_C (self_test_c d)
    (dev_after_reads 50 (self_test_excited d)).

(* Everything lis2mdl_self_test asks of its collaborators up to the
   report. *)
Definition self_test_traffic (d : D) : list event :=
  pass_events 50 50
  ++ [read_event LIS2MDL_CFG_REG_C;
      write_event LIS2MDL_CFG_REG_C (Z.lor (self_test_c d) 0x02);
      EvDelay 100]
  ++ pass_events 50 50
  ++ [write_event LIS2MDL_CFG_REG_C (self_test_c d); EvDelay 100].

(* The operations of the driver that follow the constructor. *)
Inductive operation :=
| OpChipId | OpReset | OpInit (MODR : Z) | OpStatus
| OpDataGet | OpTempGet | OpOffsetBias | OpSelfTest.

Inductive outcome :=
| OutUnit
| OutByte (b : Z)
| OutInt16 (v : Z)
| OutVector (v : arr3 Z)
| OutCalibration (dest1 dest2 : arr3 spec_float).

Definition run_op (op : operation) : M D outcome :=
  match op with
  | OpChipId => c <- lis2mdl_chip_id_get ;; ret (OutByte c)
  | OpReset => lis2mdl_reset ;;; ret OutUnit
  | OpInit MODR => lis2mdl_init MODR ;;; ret OutUnit
  | OpStatus => s <- lis2mdl_status ;; ret (OutByte s)
  | OpDataGet => v <- lis2mdl_data_get ;; ret (OutVector v)
  | OpTempGet => t <- lis2mdl_temp_get ;; ret (OutInt16 t)
  | OpOffsetBias => r <- lis2mdl_offset_bias ;; ret (OutCalibration (fst r) (snd r))
  | OpSelfTest => lis2mdl_self_test ;;; ret OutUnit
  end.

Fixpoint run_ops (ops : list operation) : M D (list outcome) :=
  match ops with
  | [] => ret []
  | op :: rest => o <- run_op op ;; os <- run_ops rest ;; ret (o :: os)
  end.

(* The result and the effects of a computation are a function of the
   device alone: neither the log nor the globals are ever consulted. *)
Definition dev_determined {A} (m : M D A) : Prop :=
  forall w1 w2, dev w1 = dev w2 ->
    fst (m w1) = fst (m w2) /\
    dev (snd (m w1)) = dev (snd (m w2)) /\
    exists evs, log (snd (m w1)) = log w1 ++ evs /\
                log (snd (m w2)) = log w2 ++ evs.
End BusView.

(** ** Runs on the scripted device *)

Module Scenario.
Definition blank : Z -> Z := fun _ => 0.

(* The driver on the scripted device, with the data sheet addresses. *)
Abbreviation run_data_get :=
  (@lis2mdl_data_get script script_bus datasheet_map).
Abbreviation run_offset_bias :=
  (@lis2mdl_offset_bias script script_bus datasheet_map).
Abbreviation run_self_test :=
  (@lis2mdl_self_test script script_bus datasheet_map).

(* The samples the first n reads of the output registers decode. *)
Abbreviation seen n w := (@samples script script_bus datasheet_map n (dev w)).

(* The samples of the two passes of a self test. *)
Abbreviation baseline w := (@samples script script_bus datasheet_map 50 (dev w)).
Abbreviation excited w :=
  (@samples script script_bus datasheet_map 50
     (@self_test_excited script script_bus datasheet_map (dev w))).

(* One read answered with 10 00 20 00 30 00 FF FF. *)
Definition one_vector : world script :=
  start (mkScript blank [[0x10; 0x00; 0x20; 0x00; 0x30; 0x00; 0xFF; 0xFF]]).

(* The x axis goes through 100, -50, 300, 10 for the whole pass, y and z
   stay at 0. *)
Definition rotation_x : world script :=
  start (mkScript blank
           (concat (repeat [burst_of 100 0 0; burst_of (-50) 0 0;
                            burst_of 300 0 0; burst_of 10 0 0] 1000))).

(* The y axis reads 42 in every one of the 4000 iterations, x and z move. *)
Definition flat_y : world script :=
  start (mkScript blank
           (concat (repeat [burst_of 100 42 (-7); burst_of (-50) 42 9;
                            burst_of 300 42 250; burst_of 10 42 (-300)] 1000))).

(* All three axes read 42 throughout. *)
Definition flat_all : world script :=
  start (mkScript blank (repeat (burst_of 42 42 42) 4000)).

(* The first sample of a pass is -32768 on the x axis. *)
Definition lowest_x : world script :=
  start (mkScript blank [burst_of (-32768) 5 (-5)]).

(* Self test: every axis at 0 without the stimulus; with it x reads 40,
   y stays at 0 and z reads 80. The control register holds 0x11. *)
Definition uneven_response : world script :=
  start (mkScript (fun r => if r =? 0x62 then 0x11 else 0)
           (repeat (burst_of 0 0 0) 50 ++ repeat (burst_of 40 0 80) 50)).

(* Self test on a device whose control register holds 0xFE, bit 1 already
   set, with every axis at 0 and then at 40. *)
Definition bit_already_set : world script :=
  start (mkScript (fun r => if r =? 0x62 then 0xFE else 0)
           (repeat (burst_of 0 0 0) 50 ++ repeat (burst_of 40 40 40) 50)).

(* Self test: every axis at 10 without the stimulus and at 40 with it. *)
Definition even_response : world script :=
  start (mkScript (fun r => if r =? 0x62 then 0x11 else 0)
           (repeat (burst_of 10 10 10) 50 ++ repeat (burst_of 40 40 40) 50)).
End Scenario.

(** ** Vocabulary of the further properties *)

(* The milliseconds a list of events spends in delay. *)
Definition total_delay (l : list event) : Z :=
  fold_right (fun e acc => match e with EvDelay ms => ms + acc | _ => acc end)
             0 l.

(* P holds of z, z + 1, ..., z + n - 1. *)
Fixpoint all_from (n : nat) (z : Z) (P : Z -> bool) : bool :=
  match n with
  | O => true
  | S k => P z && all_from k (z + 1) P
  end.

(* The product of a bias in counts with 0.0015f is finite and at most 50. *)
Definition offset_in_range (bias : Z) : bool :=
  let x := F32.mul (F32.of_int bias) lit_0_0015f in
  is_finite x && SFleb (SFabs x) (F32.of_int 50).

(* Every run of m takes the world to one related to it by R. *)
Definition steps_in {D A} (R : world D -> world D -> Prop) (m : M D A) : Prop :=
  forall w, R w (snd (m w)).

(* The log has grown by events that all satisfy P. *)
Definition appends {D} (P : event -> Prop) (w w' : world D) : Prop :=
  exists evs, log w' = log w ++ evs /\ Forall P evs.

(* The registers seen through the view reg are what they were. *)
Definition same_regs {D} (reg : D -> Z -> Z) (w w' : world D) : Prop :=
  forall r, reg (dev w') r = reg (dev w) r.

(* Nothing more has been stored past a receive buffer. *)
Definition same_stray {D} (w w' : world D) : Prop := stray w' = stray w.

Definition not_a_write (e : event) : Prop := is_write e = false.

(* Operations that only read registers. *)
Definition read_only (op : operation) : bool :=
  match op with
  | OpChipId | OpStatus | OpDataGet | OpTempGet | OpOffsetBias => true
  | OpReset | OpInit _ | OpSelfTest => false
  end.

(* Operations that do not read the magnetometer vector. *)
Definition no_vector_read (op : operation) : bool :=
  match op with
  | OpChipId | OpReset | OpInit _ | OpStatus | OpTempGet => true
  | OpDataGet | OpOffsetBias | OpSelfTest => false
  end.

Section Protocol.
Context `{RegisterMap}.

(* The transfers of the driver: to the address of the device, with bytes
   only; a read of one register, a read of several with the auto-increment
   bit of the subaddress set, or a write of one byte to CFG_REG_A, B or C. *)
Definition well_formed (e : event) : Prop :=
  match e with
  | EvTransfer address tx rx_count =>
      address = u8 LIS2MDL_ADDRESS /\
      Forall is_byte tx /\
      match tx with
      | [sub] =>
          rx_count = 1%nat \/
          ((2 <= rx_count)%nat /\ Z.testbit sub 7 = true)
      | [sub; data] =>
          rx_count = 0%nat /\
          (sub = u8 LIS2MDL_CFG_REG_A \/ sub = u8 LIS2MDL_CFG_REG_B \/
           sub = u8 LIS2MDL_CFG_REG_C)
      | _ => False
      end
  | _ => True
  end.
End Protocol.

Section RegisterFile.
Context {D : Type} `{WireBus D} `{RegisterMap}.

(* The view reg of the device is a file of byte registers: a write stores
   its byte in the register addressed and in no other, a read changes no
   register, and a read of one register returns what it holds. *)
Definition register_file (reg : D -> Z -> Z) : Prop :=
  (forall d sub v r, is_byte sub -> is_byte v ->
     reg (snd (Wire_respond (u8 LIS2MDL_ADDRESS) [sub; v] 0 d)) r =
     if r =? sub then v else reg d r) /\
  (forall d sub n r,
     reg (snd (Wire_respond (u8 LIS2MDL_ADDRESS) [sub] n d)) r = reg d r) /\
  (forall d sub, is_byte sub -> Z.testbit sub 7 = false ->
     rx_byte (fst (Wire_respond (u8 LIS2MDL_ADDRESS) [sub] 1 d)) 0 = reg d sub).

(* The three configuration registers have three addresses. *)
Definition distinct_cfg : Prop :=
  u8 LIS2MDL_CFG_REG_A <> u8 LIS2MDL_CFG_REG_B /\
  u8 LIS2MDL_CFG_REG_A <> u8 LIS2MDL_CFG_REG_C /\
  u8 LIS2MDL_CFG_REG_B <> u8 LIS2MDL_CFG_REG_C.
End RegisterFile.

(* Structural equality of floats. *)
Definition float_eqb (x y : spec_float) : bool :=
  match x, y with
  | S754_zero a, S754_zero b => Bool.eqb a b
  | S754_infinity a, S754_infinity b => Bool.eqb a b
  | S754_nan, S754_nan => true
  | S754_finite a m e, S754_finite b n f =>
      Bool.eqb a b && Pos.eqb m n && Z.eqb e f
  | _, _ => false
  end.

(* The soft-iron scale of an axis when all three scale bases are s is 1.0f. *)
Definition unit_scale (s : Z) : bool :=
  float_eqb
    (F32.div (F32.div (F32.of_int (s + s + s)) (F32.of_int 3)) (F32.of_int s))
    (F32.of_int 1).

(** * Properties *)

(** ** Machine integers *)

Lemma u8_range (v : Z) : is_byte (u8 v).
Proof. unfold is_byte, u8. apply Z.mod_pos_bound. lia. Qed.

Lemma u8_id (v : Z) : is_byte v -> u8 v = v.
Proof. unfold is_byte, u8. intros Hv. apply Z.mod_small. exact Hv. Qed.

Lemma to_int16_range (v : Z) : is_int16 (to_int16 v).
Proof.
  unfold is_int16, to_int16.
  pose proof (Z.mod_pos_bound (v + 32768) 65536 ltac:(lia)). lia.
Qed.

Lemma to_int16_id (v : Z) : is_int16 v -> to_int16 v = v.
Proof.
  unfold is_int16, to_int16. intros Hv.
  rewrite Z.mod_small by lia. lia.
Qed.

Lemma to_int32_id (v : Z) :
  -2147483648 <= v <= 2147483647 -> to_int32 v = v.
Proof.
  unfold to_int32. intros Hv.
  rewrite Z.mod_small by lia. lia.
Qed.

Lemma land_shifted_byte (hi lo : Z) :
  is_byte lo -> Z.land (hi * 2 ^ 8) lo = 0.
Proof.
  intros Hlo. apply Z.bits_inj'. intros n Hn.
  rewrite Z.land_spec, Z.bits_0.
  destruct (Z.ltb_spec n 8) as [Hlt | Hge].
  - rewrite Z.mul_pow2_bits_low by lia. reflexivity.
  - replace lo with (lo mod 2 ^ 8).
    + rewrite Z.mod_pow2_bits_high by lia. apply andb_false_r.
    + apply Z.mod_small. exact Hlo.
Qed.

Lemma lor_shifted_byte (hi lo : Z) :
  is_byte lo -> Z.lor (Z.shiftl hi 8) lo = 256 * hi + lo.
Proof.
  intros Hlo. rewrite Z.shiftl_mul_pow2 by lia.
  rewrite <- Z.lxor_lor by (apply land_shifted_byte; exact Hlo).
  rewrite <- Z.add_nocarry_lxor by (apply land_shifted_byte; exact Hlo).
  change (2 ^ 8) with 256. lia.
Qed.

(* The expression of the source computes the little-endian signed value. *)
Lemma msb_lsb_le_int16 (hi lo : Z) :
  is_byte hi -> is_byte lo -> msb_lsb hi lo = le_int16 lo hi.
Proof.
  intros Hhi Hlo. unfold msb_lsb.
  rewrite (to_int16_id hi) by (unfold is_byte, is_int16 in *; lia).
  rewrite lor_shifted_byte by exact Hlo.
  unfold le_int16, to_int16, is_byte in *.
  replace (lo + 256 * hi) with (256 * hi + lo) by lia.
  destruct (Z.ltb_spec (256 * hi + lo) 32768) as [Hsmall | Hbig].
  - rewrite Z.mod_small by lia. lia.
  - replace (256 * hi + lo + 32768)
      with (256 * hi + lo - 32768 + 1 * 65536) by lia.
    rewrite Z_mod_plus_full. rewrite Z.mod_small by lia. lia.
Qed.

Lemma le_int16_range (lo hi : Z) :
  is_byte lo -> is_byte hi -> is_int16 (le_int16 lo hi).
Proof.
  unfold is_byte, is_int16, le_int16. intros Hlo Hhi.
  destruct (Z.ltb_spec (lo + 256 * hi) 32768); lia.
Qed.

(** ** Conversion of integers to float *)

Lemma digits2_iter_xO (p k : positive) :
  digits2_pos (Pos.iter xO p k) = (digits2_pos p + k)%positive.
Proof.
  induction k as [| k IH] using Pos.peano_ind.
  - cbn. lia.
  - rewrite Pos.iter_succ. cbn [digits2_pos]. rewrite IH. lia.
Qed.

Lemma iter_xO_value (p k : positive) :
  Zpos (Pos.iter xO p k) = Zpos p * 2 ^ Zpos k.
Proof.
  induction k as [| k IH] using Pos.peano_ind.
  - cbn. lia.
  - rewrite Pos.iter_succ, Pos2Z.inj_succ, Z.pow_succ_r by lia.
    rewrite Pos2Z.inj_xO, IH. lia.
Qed.

Lemma round_aux_exact (s : bool) (m : positive) (e : Z) :
  Zpos (digits2_pos m) = 24 -> -149 <= e <= 104 ->
  binary_round_aux 24 128 s (Zpos m) e loc_Exact = S754_finite s m e.
Proof.
  intros Hd He. unfold binary_round_aux, shr_fexp, fexp, emin.
  cbn [Zdigits2]. rewrite Hd.
  replace (Z.max (24 + e - 24) (3 - 128 - 24) - e) with 0 by lia.
  cbn [shr shr_record_of_loc shr_m loc_of_shr_record round_nearest_even
       Zdigits2].
  rewrite Hd.
  replace (Z.max (24 + e - 24) (3 - 128 - 24) - e) with 0 by lia.
  cbn [shr shr_m].
  destruct (Z.leb_spec e (128 - 24)); [reflexivity | lia].
Qed.


Lemma digits2_lower (p : positive) :
  2 ^ (Zpos (digits2_pos p) - 1) <= Zpos p.
Proof.
  induction p as [p IH | p IH |]; cbn [digits2_pos].
  - rewrite Pos2Z.inj_succ, (Pos2Z.inj_xI p).
    replace (Z.succ (Zpos (digits2_pos p)) - 1)
      with (Z.succ (Zpos (digits2_pos p) - 1)) by lia.
    rewrite Z.pow_succ_r by lia. lia.
  - rewrite Pos2Z.inj_succ, (Pos2Z.inj_xO p).
    replace (Z.succ (Zpos (digits2_pos p)) - 1)
      with (Z.succ (Zpos (digits2_pos p) - 1)) by lia.
    rewrite Z.pow_succ_r by lia. lia.
  - cbn. lia.
Qed.

Lemma digits2_small (p : positive) :
  Zpos p < 2 ^ 24 -> Zpos (digits2_pos p) <= 24.
Proof.
  intros Hp. pose proof (digits2_lower p) as Hlow.
  destruct (Z.le_gt_cases (Zpos (digits2_pos p)) 24) as [Hle | Hgt];
    [exact Hle |].
  assert (2 ^ 24 <= 2 ^ (Zpos (digits2_pos p) - 1))
    by (apply Z.pow_le_mono_r; lia).
  lia.
Qed.

Lemma binary_round_exact (s : bool) (p : positive) :
  Zpos p < 2 ^ 24 ->
  exists m e,
    binary_round 24 128 s p 0 = S754_finite s m e /\
    e <= 0 /\ Zpos m = Zpos p * 2 ^ (- e).
Proof.
  intros Hp. pose proof (digits2_small p Hp) as Hd.
  unfold binary_round, fexp, emin, shl_align.
  replace (Z.max (Zpos (digits2_pos p) + 0 - 24) (3 - 128 - 24) - 0)
    with (Zpos (digits2_pos p) - 24) by lia.
  destruct (Zpos (digits2_pos p) - 24) as [| k | k] eqn:Hk; [| lia |].
  - exists p, 0. split; [| split; [lia | cbn; lia]].
    apply round_aux_exact; lia.
  - exists (Pos.iter xO p k), (Z.max (Zpos (digits2_pos p) + 0 - 24) (3 - 128 - 24)).
    split; [| split].
    + apply round_aux_exact; [| lia].
      rewrite digits2_iter_xO. lia.
    + lia.
    + rewrite iter_xO_value. f_equal. f_equal. lia.
Qed.

(* An int below 2^24 in magnitude converts to a float of the same value. *)
Lemma of_int_exact (n : Z) :
  - 2 ^ 24 < n < 2 ^ 24 -> represents (F32.of_int n) n.
Proof.
  unfold represents.
  intros Hn. destruct n as [| p | p];
    unfold F32.of_int, F32.prec, F32.emax, binary_normalize.
  - reflexivity.
  - destruct (binary_round_exact false p ltac:(lia)) as (m & e & -> & He & Hm).
    split; [exact He | lia].
  - destruct (binary_round_exact true p ltac:(lia)) as (m & e & -> & He & Hm).
    split; [exact He |]. rewrite Hm. lia.
Qed.

(** ** Receive buffers *)

Lemma received_8 (resp : list Z) :
  received resp 8 =
  [rx_byte resp 0; rx_byte resp 1; rx_byte resp 2; rx_byte resp 3;
   rx_byte resp 4; rx_byte resp 5; rx_byte resp 6; rx_byte resp 7].
Proof. reflexivity. Qed.

Lemma rx_byte_range (resp : list Z) (i : nat) : is_byte (rx_byte resp i).
Proof. apply u8_range. Qed.

Lemma sample_of_range (resp : list Z) (jj : axis) :
  is_int16 (get (sample_of (received resp 8)) jj).
Proof.
  rewrite received_8. destruct jj; cbn [get sample_of a0 a1 a2 nth];
    apply le_int16_range; apply rx_byte_range.
Qed.

Section DataGet.
Context {D : Type} `{WireBus D} `{RegisterMap}.

(* lis2mdl_data_get in one equation: the sample comes from the first six
   bytes received, and the last two are stored behind rawData. *)
Lemma data_get_eq (w : world D) :
  lis2mdl_data_get w =
  (sample_of (fst (outx_read (dev w))),
   mkWorld (snd (outx_read (dev w)))
           (log w ++ [outx_event])
           (stray w ++ skipn rawData_size (fst (outx_read (dev w))))
           (_intPin w) (_mRes w)).
Proof.
  unfold lis2mdl_data_get, lis2mdl_read_bytes, lis2mdl_read, bind, ret,
    Wire_transfer, outx_read, outx_event.
  destruct (Wire_respond (u8 LIS2MDL_ADDRESS)
              [u8 (Z.lor 128 LIS2MDL_OUTX_L_REG)] 8 (dev w)) as [resp d'].
  cbn [fst snd]. rewrite received_8.
  cbn [store_bytes uninit rawData_size repeat length firstn skipn app nth].
  unfold sample_of. cbn [nth].
  rewrite !msb_lsb_le_int16 by apply rx_byte_range.
  reflexivity.
Qed.
End DataGet.

(** ** Sampling passes *)

Section Passes.
Context {D : Type} `{WireBus D} `{RegisterMap}.

(* A loop whose body reads one sample, folds it into the loop state with
   f and waits ms, run n times. *)
Lemma sampling_loop {S : Type} (body : S -> M D S) (f : S -> arr3 Z -> S)
    (ms : Z) :
  (forall s w,
     body s w =
     (f s (sample_of (fst (outx_read (dev w)))),
      mkWorld (snd (outx_read (dev w)))
              (log w ++ [outx_event; EvDelay ms])
              (stray w ++ skipn rawData_size (fst (outx_read (dev w))))
              (_intPin w) (_mRes w))) ->
  forall n s w,
    for_loop n body s w =
    (fold_left f (samples n (dev w)) s,
     mkWorld (dev_after_reads n (dev w))
             (log w ++ pass_events n ms)
             (stray w ++ concat (map (skipn rawData_size) (bursts n (dev w))))
             (_intPin w) (_mRes w)).
Proof.
  intros Hbody. induction n as [| n IH]; intros s w.
  - destruct w as [d l st p r]. unfold samples, pass_events. cbn.
    unfold ret. rewrite !app_nil_r. reflexivity.
  - cbn [for_loop]. unfold bind. rewrite Hbody. rewrite IH.
    unfold samples, pass_events.
    cbn [dev log stray _intPin _mRes bursts dev_after_reads map fold_left
         repeat concat].
    rewrite <- !app_assoc. reflexivity.
Qed.

Lemma offset_bias_body_eq (st : arr3 Z * arr3 Z) (w : world D) :
  offset_bias_body st w =
  (extrema_update st (sample_of (fst (outx_read (dev w)))),
   mkWorld (snd (outx_read (dev w)))
           (log w ++ [outx_event; EvDelay 12])
           (stray w ++ skipn rawData_size (fst (outx_read (dev w))))
           (_intPin w) (_mRes w)).
Proof.
  unfold offset_bias_body, bind. rewrite data_get_eq.
  unfold delay, emit, ret. cbn [dev log stray _intPin _mRes].
  rewrite <- app_assoc. reflexivity.
Qed.

Lemma self_test_body_eq (sum : arr3 Z) (w : world D) :
  self_test_body sum w =
  (add_sample sum (sample_of (fst (outx_read (dev w)))),
   mkWorld (snd (outx_read (dev w)))
           (log w ++ [outx_event; EvDelay 50])
           (stray w ++ skipn rawData_size (fst (outx_read (dev w))))
           (_intPin w) (_mRes w)).
Proof.
  unfold self_test_body, bind. rewrite data_get_eq.
  unfold delay, emit, ret, add_sample. cbn [dev log stray _intPin _mRes].
  rewrite <- app_assoc. reflexivity.
Qed.

Lemma samples_range (n : nat) :
  forall d, Forall (fun s => forall jj, is_int16 (get s jj)) (samples n d).
Proof.
  unfold samples. induction n as [| n IH]; intros d; cbn [bursts map].
  - constructor.
  - constructor.
    + intros jj. unfold outx_read. cbn [fst]. apply sample_of_range.
    + apply IH.
Qed.

Lemma samples_length (n : nat) : forall d, length (samples n d) = n.
Proof.
  unfold samples. induction n as [| n IH]; intros d; cbn [bursts map length].
  - reflexivity.
  - rewrite IH. reflexivity.
Qed.
End Passes.

(** ** Running extrema *)

Lemma set_get_same {A} (v : arr3 A) (jj : axis) : set v jj (get v jj) = v.
Proof. destruct v, jj; reflexivity. Qed.

Lemma extrema_step_eq (t mx mn : arr3 Z) (jj : axis) :
  extrema_step t (mx, mn) jj =
  (set mx jj (Z.max (get mx jj) (get t jj)),
   set mn jj (Z.min (get mn jj) (get t jj))).
Proof.
  unfold extrema_step. rewrite Z.gtb_ltb.
  destruct (Z.ltb_spec (get mx jj) (get t jj)) as [Hmax | Hmax];
    destruct (Z.ltb_spec (get t jj) (get mn jj)) as [Hmin | Hmin].
  - rewrite Z.max_r, Z.min_r by lia. reflexivity.
  - rewrite Z.max_r, Z.min_l by lia. rewrite set_get_same. reflexivity.
  - rewrite Z.max_l, Z.min_r by lia. rewrite set_get_same. reflexivity.
  - rewrite Z.max_l, Z.min_l by lia. rewrite !set_get_same. reflexivity.
Qed.

Lemma extrema_update_eq (t mx mn : arr3 Z) :
  extrema_update (mx, mn) t =
  (mk3 (Z.max (a0 mx) (a0 t)) (Z.max (a1 mx) (a1 t)) (Z.max (a2 mx) (a2 t)),
   mk3 (Z.min (a0 mn) (a0 t)) (Z.min (a1 mn) (a1 t)) (Z.min (a2 mn) (a2 t))).
Proof.
  unfold extrema_update, axes. cbn [fold_left].
  rewrite !extrema_step_eq. reflexivity.
Qed.

Lemma running_extrema_fold (l : list (arr3 Z)) :
  forall mx mn,
    fold_left extrema_update l (mx, mn) =
    (mk3 (fold_left Z.max (map (fun s => get s AxisX) l) (a0 mx))
         (fold_left Z.max (map (fun s => get s AxisY) l) (a1 mx))
         (fold_left Z.max (map (fun s => get s AxisZ) l) (a2 mx)),
     mk3 (fold_left Z.min (map (fun s => get s AxisX) l) (a0 mn))
         (fold_left Z.min (map (fun s => get s AxisY) l) (a1 mn))
         (fold_left Z.min (map (fun s => get s AxisZ) l) (a2 mn))).
Proof.
  induction l as [| t l IH]; intros mx mn.
  - destruct mx, mn. reflexivity.
  - cbn [fold_left map]. rewrite extrema_update_eq, IH. reflexivity.
Qed.

(* The extrema the calibration loop ends with are the largest and the
   smallest sample of each axis, the starting values included. *)
Lemma running_extrema (l : list (arr3 Z)) :
  fold_left extrema_update l (mag_max_init, mag_min_init) =
  (mk3 (axis_max l AxisX) (axis_max l AxisY) (axis_max l AxisZ),
   mk3 (axis_min l AxisX) (axis_min l AxisY) (axis_min l AxisZ)).
Proof. rewrite running_extrema_fold. reflexivity. Qed.

Lemma fold_max_ge_init (l : list Z) : forall m, m <= fold_left Z.max l m.
Proof.
  induction l as [| v l IH]; intros m; cbn [fold_left].
  - lia.
  - specialize (IH (Z.max m v)). lia.
Qed.

Lemma fold_min_le_init (l : list Z) : forall m, fold_left Z.min l m <= m.
Proof.
  induction l as [| v l IH]; intros m; cbn [fold_left].
  - lia.
  - specialize (IH (Z.min m v)). lia.
Qed.

Lemma fold_max_bounds (l : list Z) (lo hi : Z) :
  Forall (fun v => lo <= v <= hi) l ->
  forall m, lo <= m <= hi -> lo <= fold_left Z.max l m <= hi.
Proof.
  induction 1 as [| v l Hv Hl IH]; intros m Hm; cbn [fold_left].
  - exact Hm.
  - apply IH. lia.
Qed.

Lemma fold_min_bounds (l : list Z) (lo hi : Z) :
  Forall (fun v => lo <= v <= hi) l ->
  forall m, lo <= m <= hi -> lo <= fold_left Z.min l m <= hi.
Proof.
  induction 1 as [| v l Hv Hl IH]; intros m Hm; cbn [fold_left].
  - exact Hm.
  - apply IH. lia.
Qed.

Lemma axis_values_range (l : list (arr3 Z)) (jj : axis) :
  Forall (fun s => forall jj, is_int16 (get s jj)) l ->
  Forall (fun v => -32768 <= v <= 32767) (map (fun s => get s jj) l).
Proof.
  intros Hl. apply Forall_map.
  eapply Forall_impl; [| exact Hl]. intros s Hs. apply Hs.
Qed.

Lemma axis_max_range (l : list (arr3 Z)) (jj : axis) :
  Forall (fun s => forall jj, is_int16 (get s jj)) l ->
  is_int16 (axis_max l jj).
Proof.
  intros Hl. unfold axis_max, is_int16.
  apply fold_max_bounds; [apply axis_values_range; exact Hl | lia].
Qed.

Lemma axis_min_range (l : list (arr3 Z)) (jj : axis) :
  Forall (fun s => forall jj, is_int16 (get s jj)) l ->
  is_int16 (axis_min l jj).
Proof.
  intros Hl. unfold axis_min, is_int16.
  apply fold_min_bounds; [apply axis_values_range; exact Hl | lia].
Qed.

(* Once a sample has been recorded the maximum is not below the minimum. *)
Lemma axis_max_ge_min (l : list (arr3 Z)) (jj : axis) :
  l <> [] -> axis_min l jj <= axis_max l jj.
Proof.
  destruct l as [| s l]; [congruence | intros _].
  unfold axis_max, axis_min. cbn [map fold_left].
  pose proof (fold_max_ge_init (map (fun s => get s jj) l)
                (Z.max (-32767) (get s jj))).
  pose proof (fold_min_le_init (map (fun s => get s jj) l)
                (Z.min 32767 (get s jj))).
  lia.
Qed.

(* A single sample is both extrema of its axis, unless it is -32768, the one
   value below the start of the maximum. *)
Lemma single_sample_extrema (s : arr3 Z) (jj : axis) :
  -32767 <= get s jj <= 32767 ->
  axis_max [s] jj = get s jj /\ axis_min [s] jj = get s jj.
Proof. unfold axis_max, axis_min. cbn [map fold_left]. lia. Qed.

(** ** Register access *)

Section Registers.
Context {D : Type} `{WireBus D} `{RegisterMap}.

Lemma read_byte_eq (sub : Z) (w : world D) :
  lis2mdl_read_byte LIS2MDL_ADDRESS sub w =
  (fst (reg_read sub (dev w)),
   mkWorld (snd (reg_read sub (dev w))) (log w ++ [read_event sub])
           (stray w) (_intPin w) (_mRes w)).
Proof.
  unfold lis2mdl_read_byte, bind, ret, Wire_transfer, reg_read, read_event.
  destruct (Wire_respond (u8 LIS2MDL_ADDRESS) [u8 sub] 1 (dev w))
    as [resp d'].
  cbn. rewrite app_nil_r. reflexivity.
Qed.

Lemma write_byte_eq (sub data : Z) (w : world D) :
  lis2mdl_write_byte LIS2MDL_ADDRESS sub data w =
  (tt,
   mkWorld (reg_write sub data (dev w)) (log w ++ [write_event sub data])
           (stray w) (_intPin w) (_mRes w)).
Proof.
  unfold lis2mdl_write_byte, bind, ret, Wire_transfer, reg_write, write_event.
  destruct (Wire_respond (u8 LIS2MDL_ADDRESS) [u8 sub; u8 data] 0 (dev w))
    as [resp d'].
  cbn. rewrite app_nil_r. reflexivity.
Qed.

Lemma reg_read_byte (sub : Z) (d : D) : is_byte (fst (reg_read sub d)).
Proof. unfold reg_read. cbn [fst]. apply rx_byte_range. Qed.
End Registers.

(** ** The calibration pass in one equation *)

Section Calibration.
Context {D : Type} `{WireBus D} `{RegisterMap}.

Lemma offset_bias_eq (w : world D) :
  lis2mdl_offset_bias w =
  (let st := fold_left extrema_update (samples 4000 (dev w))
               (mag_max_init, mag_min_init) in
   (hard_iron (fst st) (snd st), soft_iron (fst st) (snd st)),
   mkWorld (dev_after_reads 4000 (dev w))
           (log w ++ calibration_events)
           (stray w ++
            concat (map (skipn rawData_size) (bursts 4000 (dev w))))
           (_intPin w) (_mRes w)).
Proof.
  unfold lis2mdl_offset_bias, bind, Serial_println, delay, emit.
  cbv beta iota.
  rewrite (sampling_loop offset_bias_body extrema_update 12
             offset_bias_body_eq).
  cbv beta iota zeta. cbn [dev log stray _intPin _mRes].
  destruct (fold_left extrema_update (samples 4000 (dev w))
              (mag_max_init, mag_min_init)) as [mx mn].
  unfold ret, calibration_events.
  cbn [dev log stray _intPin _mRes fst snd].
  rewrite <- !app_assoc. reflexivity.
Qed.
End Calibration.

(** ** Integer arithmetic of the calibration *)

Lemma quot2_bounds (a lo hi : Z) :
  lo <= 0 <= hi -> lo <= a <= hi -> lo <= Z.quot a 2 <= hi.
Proof.
  intros H0 Ha. Z.to_euclidean_division_equations. lia.
Qed.

Lemma int_div_add (mx mn : Z) :
  is_int16 mx -> is_int16 mn ->
  int_div (int_add mx mn) 2 = Z.quot (mx + mn) 2.
Proof.
  unfold is_int16, int_div, int_add. intros Hx Hn.
  rewrite (to_int32_id (mx + mn)) by lia.
  apply to_int32_id.
  apply (quot2_bounds (mx + mn) (-2147483648) 2147483647); lia.
Qed.

Lemma int_div_sub (mx mn : Z) :
  is_int16 mx -> is_int16 mn ->
  int_div (int_sub mx mn) 2 = Z.quot (mx - mn) 2.
Proof.
  unfold is_int16, int_div, int_sub. intros Hx Hn.
  rewrite (to_int32_id (mx - mn)) by lia.
  apply to_int32_id.
  apply (quot2_bounds (mx - mn) (-2147483648) 2147483647); lia.
Qed.

Lemma half_range_bounds (mx mn : Z) :
  is_int16 mx -> is_int16 mn -> -65535 <= Z.quot (mx - mn) 2 <= 65535.
Proof.
  unfold is_int16. intros Hx Hn.
  apply (quot2_bounds (mx - mn) (-65535) 65535); lia.
Qed.

Lemma hard_iron_get (mx mn : arr3 Z) (jj : axis) :
  (forall k, is_int16 (get mx k)) -> (forall k, is_int16 (get mn k)) ->
  get (hard_iron mx mn) jj =
  F32.mul (F32.of_int (Z.quot (get mx jj + get mn jj) 2)) lit_0_0015f.
Proof.
  intros Hx Hn. unfold hard_iron.
  pose proof (Hx AxisX); pose proof (Hx AxisY); pose proof (Hx AxisZ).
  pose proof (Hn AxisX); pose proof (Hn AxisY); pose proof (Hn AxisZ).
  cbn [get] in *. rewrite !int_div_add by assumption.
  destruct jj; reflexivity.
Qed.

Lemma scale_basis_get (mx mn : arr3 Z) (jj : axis) :
  (forall k, is_int16 (get mx k)) -> (forall k, is_int16 (get mn k)) ->
  get (scale_basis mx mn) jj = Z.quot (get mx jj - get mn jj) 2.
Proof.
  intros Hx Hn. unfold scale_basis.
  pose proof (Hx AxisX); pose proof (Hx AxisY); pose proof (Hx AxisZ).
  pose proof (Hn AxisX); pose proof (Hn AxisY); pose proof (Hn AxisZ).
  cbn [get] in *. rewrite !int_div_sub by assumption.
  destruct jj; reflexivity.
Qed.

Lemma average_radius_eq (mx mn : arr3 Z) :
  (forall k, is_int16 (get mx k)) -> (forall k, is_int16 (get mn k)) ->
  average_radius (scale_basis mx mn) =
  F32.div
    (F32.of_int (Z.quot (a0 mx - a0 mn) 2 + Z.quot (a1 mx - a1 mn) 2
                 + Z.quot (a2 mx - a2 mn) 2))
    (F32.of_int 3).
Proof.
  intros Hx Hn. unfold average_radius.
  pose proof (scale_basis_get mx mn AxisX Hx Hn) as H0.
  pose proof (scale_basis_get mx mn AxisY Hx Hn) as H1.
  pose proof (scale_basis_get mx mn AxisZ Hx Hn) as H2.
  cbn [get] in H0, H1, H2. rewrite H0, H1, H2.
  pose proof (half_range_bounds _ _ (Hx AxisX) (Hn AxisX)).
  pose proof (half_range_bounds _ _ (Hx AxisY) (Hn AxisY)).
  pose proof (half_range_bounds _ _ (Hx AxisZ) (Hn AxisZ)).
  cbn [get] in *. unfold int_add.
  rewrite (to_int32_id (_ + Z.quot (a1 mx - a1 mn) 2)) by lia.
  rewrite to_int32_id by lia.
  reflexivity.
Qed.

Lemma soft_iron_get (mx mn : arr3 Z) (jj : axis) :
  (forall k, is_int16 (get mx k)) -> (forall k, is_int16 (get mn k)) ->
  get (soft_iron mx mn) jj =
  F32.div (average_radius (scale_basis mx mn))
          (F32.of_int (Z.quot (get mx jj - get mn jj) 2)).
Proof.
  intros Hx Hn. rewrite <- scale_basis_get by assumption.
  unfold soft_iron. destruct jj; reflexivity.
Qed.

Lemma extrema_in_range (l : list (arr3 Z)) :
  Forall (fun s => forall jj, is_int16 (get s jj)) l ->
  (forall k, is_int16 (get (mk3 (axis_max l AxisX) (axis_max l AxisY)
                                (axis_max l AxisZ)) k))
  /\
  (forall k, is_int16 (get (mk3 (axis_min l AxisX) (axis_min l AxisY)
                                (axis_min l AxisZ)) k)).
Proof.
  intros Hl. split; intros k.
  - destruct k; cbn [get a0 a1 a2]; apply axis_max_range; exact Hl.
  - destruct k; cbn [get a0 a1 a2]; apply axis_min_range; exact Hl.
Qed.

(* The two vectors computed from the samples of a pass. *)
Lemma hard_iron_of_samples (l : list (arr3 Z)) (jj : axis) :
  Forall (fun s => forall jj, is_int16 (get s jj)) l ->
  get (hard_iron (fst (fold_left extrema_update l (mag_max_init, mag_min_init)))
                 (snd (fold_left extrema_update l (mag_max_init, mag_min_init))))
      jj =
  F32.mul (F32.of_int (bias_counts l jj)) lit_0_0015f.
Proof.
  intros Hl. rewrite running_extrema. cbn [fst snd].
  destruct (extrema_in_range l Hl) as [Hx Hn].
  rewrite hard_iron_get by assumption.
  unfold bias_counts. destruct jj; reflexivity.
Qed.

Lemma average_radius_of_samples (l : list (arr3 Z)) :
  Forall (fun s => forall jj, is_int16 (get s jj)) l ->
  average_radius
    (scale_basis
       (fst (fold_left extrema_update l (mag_max_init, mag_min_init)))
       (snd (fold_left extrema_update l (mag_max_init, mag_min_init)))) =
  mean_radius l.
Proof.
  intros Hl. rewrite running_extrema. cbn [fst snd].
  destruct (extrema_in_range l Hl) as [Hx Hn].
  rewrite average_radius_eq by assumption. reflexivity.
Qed.

Lemma soft_iron_of_samples (l : list (arr3 Z)) (jj : axis) :
  Forall (fun s => forall jj, is_int16 (get s jj)) l ->
  get (soft_iron (fst (fold_left extrema_update l (mag_max_init, mag_min_init)))
                 (snd (fold_left extrema_update l (mag_max_init, mag_min_init))))
      jj =
  F32.div (mean_radius l) (F32.of_int (half_range l jj)).
Proof.
  intros Hl. rewrite <- (average_radius_of_samples l Hl).
  rewrite running_extrema. cbn [fst snd].
  destruct (extrema_in_range l Hl) as [Hx Hn].
  rewrite soft_iron_get by assumption.
  unfold half_range. destruct jj; reflexivity.
Qed.

Section CalibrationResult.
Context {D : Type} `{WireBus D} `{RegisterMap}.

Lemma offset_bias_dest1 (w : world D) (jj : axis) :
  get (fst (fst (lis2mdl_offset_bias w))) jj =
  F32.mul (F32.of_int (bias_counts (samples 4000 (dev w)) jj)) lit_0_0015f.
Proof.
  rewrite offset_bias_eq. cbv zeta. cbn [fst].
  apply hard_iron_of_samples. apply samples_range.
Qed.

Lemma offset_bias_dest2 (w : world D) (jj : axis) :
  get (snd (fst (lis2mdl_offset_bias w))) jj =
  F32.div (mean_radius (samples 4000 (dev w)))
          (F32.of_int (half_range (samples 4000 (dev w)) jj)).
Proof.
  rewrite offset_bias_eq. cbv zeta. cbn [fst snd].
  apply soft_iron_of_samples. apply samples_range.
Qed.

Lemma offset_bias_world (w : world D) :
  snd (lis2mdl_offset_bias w) =
  mkWorld (dev_after_reads 4000 (dev w))
          (log w ++ calibration_events)
          (stray w ++
           concat (map (skipn rawData_size) (bursts 4000 (dev w))))
          (_intPin w) (_mRes w).
Proof. rewrite offset_bias_eq. reflexivity. Qed.
End CalibrationResult.

(** ** Reading a vector *)

(** C4: whatever eight bytes the bus returns, lis2mdl_data_get issues one
    transfer asking for 8 bytes from the output registers, and decodes the
    first six as three little-endian signed 16-bit values, low byte first;
    the last two bytes do not enter the result. *)
Theorem data_get_decodes_little_endian
    (D : Type) (bus : WireBus D) (map : RegisterMap) (w : world D)
    (b0 b1 b2 b3 b4 b5 b6 b7 : Z) (d' : D) :
  Wire_respond (u8 LIS2MDL_ADDRESS) [u8 (Z.lor 0x80 LIS2MDL_OUTX_L_REG)] 8
    (dev w) = ([b0; b1; b2; b3; b4; b5; b6; b7], d') ->
  Forall is_byte [b0; b1; b2; b3; b4; b5; b6; b7] ->
  fst (lis2mdl_data_get w) =
    mk3 (le_int16 b0 b1) (le_int16 b2 b3) (le_int16 b4 b5) /\
  log (snd (lis2mdl_data_get w)) =
    log w ++ [EvTransfer (u8 LIS2MDL_ADDRESS)
                [u8 (Z.lor 0x80 LIS2MDL_OUTX_L_REG)] 8] /\
  dev (snd (lis2mdl_data_get w)) = d'.
Proof.
  intros Hresp Hbytes. rewrite data_get_eq. cbn [fst snd log dev].
  unfold outx_read. rewrite Hresp. cbn [fst snd].
  rewrite received_8. unfold sample_of, rx_byte. cbn [nth].
  repeat match goal with
         | Hb : Forall is_byte (_ :: _) |- _ =>
             let Hh := fresh "Hh" in
             apply Forall_cons_iff in Hb; destruct Hb as [Hh Hb];
             rewrite (u8_id _ Hh)
         end.
  repeat split; reflexivity.
Qed.

Lemma data_get_decodes_little_endian_witness :
  fst (Scenario.run_data_get Scenario.one_vector) = mk3 16 32 48 /\
  log (snd (Scenario.run_data_get Scenario.one_vector)) =
    [EvTransfer 0x1E [0xE8] 8] /\
  dev (snd (Scenario.run_data_get Scenario.one_vector)) =
    mkScript Scenario.blank [].
Proof.
  apply (data_get_decodes_little_endian script script_bus datasheet_map
           Scenario.one_vector 0x10 0x00 0x20 0x00 0x30 0x00 0xFF 0xFF).
  - reflexivity.
  - repeat constructor; unfold is_byte; lia.
Defined.

(** C3: lis2mdl_data_get asks the bus for 8 bytes and receives them in
    rawData, which has 6 cells: the seventh and the eighth byte are stored
    past the end of the array, in every call. *)
Theorem data_get_stores_past_rawData :
  (forall (D : Type) (bus : WireBus D) (map : RegisterMap) (w : world D),
     stray (snd (lis2mdl_data_get w)) =
     stray w ++ [nth 6 (fst (outx_read (dev w))) 0;
                 nth 7 (fst (outx_read (dev w))) 0]) /\
  (rawData_size < 8)%nat /\
  stray (snd (Scenario.run_data_get Scenario.one_vector)) = [0xFF; 0xFF].
Proof.
  split; [| split].
  - intros D bus map w. rewrite data_get_eq. cbn [snd stray].
    unfold outx_read. cbn [fst]. rewrite received_8. reflexivity.
  - unfold rawData_size. lia.
  - reflexivity.
Qed.

(* The sibling lis2mdl_temp_get asks for as many bytes as its array has. *)
Lemma temp_get_stays_in_bounds
    (D : Type) (bus : WireBus D) (map : RegisterMap) (w : world D) :
  stray (snd (lis2mdl_temp_get w)) = stray w.
Proof.
  unfold lis2mdl_temp_get, lis2mdl_read_bytes, lis2mdl_read, bind, ret,
    Wire_transfer.
  destruct (Wire_respond (u8 LIS2MDL_ADDRESS)
              [u8 (Z.lor 128 LIS2MDL_TEMP_OUT_L_REG)] 2 (dev w)) as [resp d'].
  cbn. apply app_nil_r.
Qed.

(** ** Running extrema *)

(** C7 as stated fails: a single sample of -32768 on an axis is below the
    value the maximum starts with, -32767: the minimum takes the sample and
    the maximum keeps -32767, so the maximum is not the sample's value. *)
Theorem lowest_sample_is_not_the_maximum :
  let s := fst (Scenario.run_data_get Scenario.lowest_x) in
  get s AxisX = -32768 /\
  extrema_update (mag_max_init, mag_min_init) s =
    (mk3 (-32767) 5 (-5), mk3 (-32768) 5 (-5)) /\
  axis_max [s] AxisX = -32767 /\
  axis_min [s] AxisX = -32768.
Proof. vm_compute. repeat split; reflexivity. Qed.

Lemma running_extrema_ordered (l : list (arr3 Z)) (jj : axis) :
  l <> [] ->
  get (snd (fold_left extrema_update l (mag_max_init, mag_min_init))) jj <=
  get (fst (fold_left extrema_update l (mag_max_init, mag_min_init))) jj.
Proof.
  intros Hl. rewrite running_extrema. cbn [fst snd].
  pose proof (axis_max_ge_min l jj Hl). destruct jj; exact H.
Qed.

Lemma running_extrema_single (s : arr3 Z) (jj : axis) :
  -32767 <= get s jj <= 32767 ->
  get (fst (extrema_update (mag_max_init, mag_min_init) s)) jj = get s jj /\
  get (snd (extrema_update (mag_max_init, mag_min_init) s)) jj = get s jj.
Proof.
  intros Hs. rewrite extrema_update_eq. cbn [fst snd].
  destruct jj; cbn [get a0 a1 a2 mag_max_init mag_min_init] in *; lia.
Qed.

(** C7 (amended): for every sequence of samples fed into the extrema
    update from the start values max = -32767, min = +32767, once at least
    one sample has been recorded max >= min on every axis; when exactly one
    sample was fed, the minimum of an axis is that sample's value, and so is
    the maximum provided the value is at least -32767 (for -32768 the maximum
    keeps its start value -32767). *)
Theorem running_extrema_ordered_and_single_sample
    (l : list (arr3 Z)) (jj : axis) :
  l <> [] ->
  let st := fold_left extrema_update l (mag_max_init, mag_min_init) in
  get (snd st) jj <= get (fst st) jj /\
  (forall s, l = [s] -> is_int16 (get s jj) ->
     get (snd st) jj = get s jj /\
     (-32767 <= get s jj -> get (fst st) jj = get s jj) /\
     (get s jj = -32768 -> get (fst st) jj = -32767)).
Proof.
  intros Hne. cbv zeta. split.
  - apply running_extrema_ordered. exact Hne.
  - intros s -> Hs. cbn [fold_left]. rewrite extrema_update_eq.
    cbn [fst snd]. unfold is_int16 in Hs.
    destruct jj; cbn [get a0 a1 a2 mag_max_init mag_min_init] in *;
      repeat split; intros; lia.
Qed.

Lemma running_extrema_ordered_and_single_sample_witness :
  let st := fold_left extrema_update [mk3 5 (-7) 300]
              (mag_max_init, mag_min_init) in
  get (snd st) AxisZ <= get (fst st) AxisZ /\
  get (snd st) AxisZ = 300 /\
  get (fst st) AxisZ = 300.
Proof.
  cbv zeta.
  assert (Hne : [mk3 5 (-7) 300] <> []) by discriminate.
  assert (Hs : is_int16 (get (mk3 5 (-7) 300) AxisZ))
    by (unfold is_int16; cbn; lia).
  split; [| split].
  - apply (proj1 (running_extrema_ordered_and_single_sample
                    [mk3 5 (-7) 300] AxisZ Hne)).
  - apply (proj1 (proj2 (running_extrema_ordered_and_single_sample
                           [mk3 5 (-7) 300] AxisZ Hne)
                    (mk3 5 (-7) 300) eq_refl Hs)).
  - apply (proj1 (proj2 (proj2 (running_extrema_ordered_and_single_sample
                                  [mk3 5 (-7) 300] AxisZ Hne)
                           (mk3 5 (-7) 300) eq_refl Hs))).
    cbn. lia.
Defined.

(* In lis2mdl_offset_bias the loop has recorded at least one sample when it
   ends, so max >= min holds on every run. *)
Lemma offset_bias_loop_extrema_ordered
    (D : Type) (bus : WireBus D) (map : RegisterMap) (w : world D)
    (n : nat) (jj : axis) :
  get (snd (fst (for_loop (S n) offset_bias_body
                   (mag_max_init, mag_min_init) w))) jj <=
  get (fst (fst (for_loop (S n) offset_bias_body
                   (mag_max_init, mag_min_init) w))) jj.
Proof.
  rewrite (sampling_loop offset_bias_body extrema_update 12
             offset_bias_body_eq).
  cbn [fst]. apply running_extrema_ordered.
  unfold samples. cbn [bursts List.map]. discriminate.
Qed.

(** ** Calibration *)

(** C6: for every axis the hard-iron offset lis2mdl_offset_bias returns is
    the float product of the bias in counts and the sensitivity 0.0015f,
    where the bias is (max + min) / 2 truncated toward zero and max, min are
    the extrema of the axis over the 4000 samples of the pass.  For the
    x-axis values 100, -50, 300, 10: max = 300, min = -50, bias = 125 counts
    and offset 0.1875, on the four samples and on a whole pass made of
    them. *)
Theorem hard_iron_offset_is_truncated_midpoint :
  (forall (D : Type) (bus : WireBus D) (map : RegisterMap) (w : world D)
          (jj : axis),
     get (fst (fst (lis2mdl_offset_bias w))) jj =
     F32.mul (F32.of_int (bias_counts (samples 4000 (dev w)) jj))
             lit_0_0015f) /\
  (let l := [mk3 100 0 0; mk3 (-50) 0 0; mk3 300 0 0; mk3 10 0 0] in
   fold_left extrema_update l (mag_max_init, mag_min_init) =
     (mk3 300 0 0, mk3 (-50) 0 0) /\
   bias_counts l AxisX = 125 /\
   get (hard_iron (mk3 300 0 0) (mk3 (-50) 0 0)) AxisX =
     decimal_f32 1875 10000) /\
  get (fst (fst (Scenario.run_offset_bias Scenario.rotation_x))) AxisX =
    decimal_f32 1875 10000.
Proof.
  split; [| split].
  - intros D bus map w jj. apply offset_bias_dest1.
  - cbv zeta. repeat split; reflexivity.
  - vm_compute. reflexivity.
Qed.

(* The division truncates toward zero: a sum of -5 gives -2. *)
Example bias_counts_truncates_toward_zero :
  bias_counts [mk3 3 0 0; mk3 (-8) 0 0] AxisX = -2 /\
  get (hard_iron (mk3 3 0 0) (mk3 (-8) 0 0)) AxisX =
    F32.mul (F32.of_int (-2)) lit_0_0015f.
Proof. split; reflexivity. Qed.

(* 0.0015f is the float nearest to 15/10000. *)
Example lit_0_0015f_is_nearest : lit_0_0015f = decimal_f32 15 10000.
Proof. reflexivity. Qed.

(** C5: at the end of the pass avg_rad is the float quotient by 3.0f of the
    sum of the three scale bases, each (max - min) / 2 in counts, and every
    entry of the soft-iron scale is the float quotient of avg_rad by the
    scale basis of its axis. *)
Theorem soft_iron_scale_is_mean_over_basis
    (D : Type) (bus : WireBus D) (map : RegisterMap) (w : world D)
    (jj : axis) :
  average_radius
    (scale_basis
       (fst (fold_left extrema_update (samples 4000 (dev w))
               (mag_max_init, mag_min_init)))
       (snd (fold_left extrema_update (samples 4000 (dev w))
               (mag_max_init, mag_min_init)))) =
    mean_radius (samples 4000 (dev w)) /\
  get (snd (fst (lis2mdl_offset_bias w))) jj =
    F32.div (mean_radius (samples 4000 (dev w)))
            (F32.of_int (half_range (samples 4000 (dev w)) jj)).
Proof.
  split.
  - apply average_radius_of_samples. apply samples_range.
  - apply offset_bias_dest2.
Qed.

(* The mean is a float division: bases 1, 1, 2 give 4/3, not 1. *)
Example average_radius_is_not_integer_division :
  average_radius (mk3 1 1 2) = decimal_f32 4 3 /\
  average_radius (mk3 1 1 2) <> F32.of_int (Z.quot 4 3).
Proof. split; [reflexivity | discriminate]. Qed.

(* The integers the calibration converts to float are converted exactly:
   the bias and the scale basis of every axis, and the sum of the three
   scale bases. *)
Lemma calibration_conversions_exact (l : list (arr3 Z)) (jj : axis) :
  Forall (fun s => forall jj, is_int16 (get s jj)) l ->
  represents (F32.of_int (bias_counts l jj)) (bias_counts l jj) /\
  represents (F32.of_int (half_range l jj)) (half_range l jj) /\
  represents
    (F32.of_int (half_range l AxisX + half_range l AxisY + half_range l AxisZ))
    (half_range l AxisX + half_range l AxisY + half_range l AxisZ).
Proof.
  intros Hl.
  assert (Hmax : forall k, is_int16 (axis_max l k))
    by (intros k; apply axis_max_range; exact Hl).
  assert (Hmin : forall k, is_int16 (axis_min l k))
    by (intros k; apply axis_min_range; exact Hl).
  assert (Hhalf : forall k, -65535 <= half_range l k <= 65535)
    by (intros k; apply half_range_bounds; [apply Hmax | apply Hmin]).
  pose proof (Hhalf AxisX); pose proof (Hhalf AxisY); pose proof (Hhalf AxisZ).
  pose proof (Hhalf jj).
  assert (-65536 <= bias_counts l jj <= 65536).
  { unfold bias_counts. pose proof (Hmax jj) as Hx. pose proof (Hmin jj) as Hn.
    unfold is_int16 in Hx, Hn.
    apply (quot2_bounds _ (-65536) 65536); lia. }
  change (2 ^ 24) with 16777216 in *.
  repeat split; apply of_int_exact; change (2 ^ 24) with 16777216; lia.
Qed.

Lemma pass_events_traffic (map : RegisterMap) (n : nat) (ms : Z) :
  bus_traffic (pass_events n ms) = repeat outx_event n.
Proof.
  unfold pass_events, bus_traffic.
  induction n as [| n IH]; cbn [repeat concat].
  - reflexivity.
  - cbn [app filter is_transfer outx_event]. rewrite IH. reflexivity.
Qed.

Lemma pass_events_no_write (map : RegisterMap) (n : nat) (ms : Z) :
  filter is_write (pass_events n ms) = [].
Proof.
  unfold pass_events.
  induction n as [| n IH]; cbn [repeat concat].
  - reflexivity.
  - cbn [app filter is_write outx_event]. exact IH.
Qed.

Lemma view_after_reads (D R : Type) (bus : WireBus D) (map : RegisterMap)
    (view : D -> R) :
  (forall d, view (snd (outx_read d)) = view d) ->
  forall n d, view (dev_after_reads n d) = view d.
Proof.
  intros Hview. induction n as [| n IH]; intros d; cbn [dev_after_reads].
  - reflexivity.
  - rewrite IH. apply Hview.
Qed.

(** C8: a run of lis2mdl_offset_bias asks its collaborators for the prompt,
    the 4 s delay, 4000 times a read of the output registers followed by a
    12 ms delay, and the completion message.  Its bus traffic is exactly the
    4000 reads, none of its transfers is a register write, the device ends in
    the state 4000 reads of the output registers lead to, and whatever part
    of the device state those reads leave alone is unchanged. *)
Theorem calibration_reads_4000_and_never_writes
    (D : Type) (bus : WireBus D) (map : RegisterMap) (w : world D) :
  log (snd (lis2mdl_offset_bias w)) = log w ++ calibration_events /\
  bus_traffic calibration_events = repeat outx_event 4000 /\
  filter is_write calibration_events = [] /\
  length (samples 4000 (dev w)) = 4000%nat /\
  dev (snd (lis2mdl_offset_bias w)) = dev_after_reads 4000 (dev w) /\
  (forall (R : Type) (view : D -> R),
     (forall d, view (snd (outx_read d)) = view d) ->
     view (dev (snd (lis2mdl_offset_bias w))) = view (dev w)).
Proof.
  rewrite offset_bias_world. cbn [log dev].
  split; [reflexivity |]. split.
  { unfold calibration_events, bus_traffic. rewrite !filter_app.
    fold (bus_traffic (pass_events 4000 12)). rewrite pass_events_traffic.
    cbn [filter is_transfer app]. apply app_nil_r. }
  split.
  { unfold calibration_events. rewrite !filter_app.
    rewrite pass_events_no_write. reflexivity. }
  split; [apply samples_length |].
  split; [reflexivity |].
  intros R view Hview. apply view_after_reads. exact Hview.
Qed.

Lemma calibration_reads_4000_and_never_writes_witness :
  regs (dev (snd (Scenario.run_offset_bias Scenario.rotation_x))) =
  regs (dev Scenario.rotation_x).
Proof.
  apply (proj2 (proj2 (proj2 (proj2 (proj2
           (calibration_reads_4000_and_never_writes script script_bus
              datasheet_map Scenario.rotation_x)))))
           (Z -> Z) regs).
  intros d. reflexivity.
Defined.

Lemma div_by_zero_not_finite (x : spec_float) :
  is_finite (F32.div x (S754_zero false)) = false.
Proof. destruct x as [s | s | | s m e]; reflexivity. Qed.

(** C2 (amended): when the scale basis (max - min) / 2 of an axis is zero
    over the pass, as it is for an axis that never varied,
    lis2mdl_offset_bias still runs to its end and returns both vectors: the
    soft-iron scale of that axis is the float quotient of avg_rad by 0.0,
    which is not finite (an infinity, or NaN when avg_rad is zero too). *)
Theorem degenerate_axis_gets_non_finite_scale
    (D : Type) (bus : WireBus D) (map : RegisterMap) (w : world D)
    (jj : axis) :
  half_range (samples 4000 (dev w)) jj = 0 ->
  get (snd (fst (lis2mdl_offset_bias w))) jj =
    F32.div (mean_radius (samples 4000 (dev w))) (S754_zero false) /\
  is_finite (get (snd (fst (lis2mdl_offset_bias w))) jj) = false /\
  log (snd (lis2mdl_offset_bias w)) = log w ++ calibration_events.
Proof.
  intros Hzero. rewrite offset_bias_dest2, Hzero.
  change (F32.of_int 0) with (S754_zero false).
  split; [reflexivity |]. split.
  - apply div_by_zero_not_finite.
  - rewrite offset_bias_world. reflexivity.
Qed.

Lemma degenerate_axis_gets_non_finite_scale_witness :
  half_range (Scenario.seen 4000 Scenario.flat_y) AxisY = 0 /\
  is_finite (get (snd (fst (Scenario.run_offset_bias Scenario.flat_y))) AxisY)
    = false.
Proof.
  assert (Hzero : half_range (Scenario.seen 4000 Scenario.flat_y) AxisY = 0)
    by (vm_compute; reflexivity).
  split; [exact Hzero |].
  apply (degenerate_axis_gets_non_finite_scale script script_bus
           datasheet_map Scenario.flat_y AxisY Hzero).
Defined.

(** C2 as stated fails: with the y axis at 42 in all 4000 iterations
    (max - min = 0) the call does not fail, it returns a soft-iron scale
    whose y entry is +infinity; with all three axes at 42 it returns three
    NaN. *)
Lemma constant_axis_is_not_rejected :
  forallb (fun s => get s AxisY =? 42) (Scenario.seen 4000 Scenario.flat_y)
    = true /\
  axis_max (Scenario.seen 4000 Scenario.flat_y) AxisY
    - axis_min (Scenario.seen 4000 Scenario.flat_y) AxisY = 0 /\
  get (snd (fst (Scenario.run_offset_bias Scenario.flat_y))) AxisY
    = S754_infinity false /\
  snd (fst (Scenario.run_offset_bias Scenario.flat_all))
    = mk3 S754_nan S754_nan S754_nan.
Proof. vm_compute. repeat split; reflexivity. Qed.

(** ** Self test *)

Lemma add_sample_fold (l : list (arr3 Z)) :
  forall (acc : arr3 Z) (B : Z),
    Forall (fun s => forall jj, is_int16 (get s jj)) l ->
    (forall k, - B <= get acc k <= B) ->
    B + 32768 * Z.of_nat (length l) <= 2147483647 ->
    fold_left add_sample l acc =
    mk3 (fold_left Z.add (map (fun s => get s AxisX) l) (a0 acc))
        (fold_left Z.add (map (fun s => get s AxisY) l) (a1 acc))
        (fold_left Z.add (map (fun s => get s AxisZ) l) (a2 acc)).
Proof.
  induction l as [| s l IH]; intros acc B Hl Hacc Hfit.
  - destruct acc. reflexivity.
  - apply Forall_cons_iff in Hl. destruct Hl as [Hs Hl].
    cbn [fold_left map length] in *.
    pose proof (Hs AxisX); pose proof (Hs AxisY); pose proof (Hs AxisZ).
    pose proof (Hacc AxisX); pose proof (Hacc AxisY); pose proof (Hacc AxisZ).
    unfold is_int16 in *. cbn [get] in *.
    rewrite (IH (add_sample acc s) (B + 32768)).
    + unfold add_sample, int_add. cbn [a0 a1 a2 get].
      rewrite !to_int32_id by lia. reflexivity.
    + exact Hl.
    + intros k. unfold add_sample, int_add.
      destruct k; cbn [get a0 a1 a2]; rewrite to_int32_id by lia; lia.
    + lia.
Qed.

Section SelfTest.
Context {D : Type} `{WireBus D} `{RegisterMap}.

(* The sums of a pass of 50 reads are the plain sums of the samples: the
   int32_t accumulators do not wrap. *)
Lemma pass_sums (d : D) :
  fold_left add_sample (samples 50 d) (mk3 0 0 0) = sums (samples 50 d).
Proof.
  rewrite (add_sample_fold (samples 50 d) (mk3 0 0 0) 0).
  - unfold sums, axis_sum. cbn [a0 a1 a2]. reflexivity.
  - apply samples_range.
  - intros k. destruct k; cbn; lia.
  - rewrite samples_length. lia.
Qed.

Lemma emit_eq (e : event) (w : world D) :
  emit e w =
  (tt, mkWorld (dev w) (log w ++ [e]) (stray w) (_intPin w) (_mRes w)).
Proof. reflexivity. Qed.

Lemma self_test_eq (w : world D) :
  lis2mdl_self_test w =
  (tt,
   mkWorld (self_test_final (dev w))
     (log w ++ self_test_traffic (dev w)
      ++ report_events
           (axis_delta (samples 50 (dev w))
              (samples 50 (self_test_excited (dev w))) AxisX)
           (axis_delta (samples 50 (dev w))
              (samples 50 (self_test_excited (dev w))) AxisX)
           (axis_delta (samples 50 (dev w))
              (samples 50 (self_test_excited (dev w))) AxisY))
     (stray w
      ++ concat (map (skipn rawData_size) (bursts 50 (dev w)))
      ++ concat (map (skipn rawData_size)
                   (bursts 50 (self_test_excited (dev w)))))
     (_intPin w) (_mRes w)).
Proof.
  unfold lis2mdl_self_test, delay, Serial_println, Serial_print,
    Serial_print_num, Serial_println_num.
  repeat (unfold bind at 1;
          first [ rewrite (sampling_loop self_test_body add_sample 50
                             self_test_body_eq)
                | rewrite read_byte_eq
                | rewrite write_byte_eq
                | rewrite emit_eq ];
          cbv beta iota; cbn [dev log stray _intPin _mRes fst snd]).
  rewrite emit_eq. cbn [dev log stray _intPin _mRes].
  rewrite !pass_sums.
  unfold self_test_final, self_test_excited, self_test_c, self_test_traffic,
    report_events, axis_delta.
  rewrite <- !app_assoc. reflexivity.
Qed.
End SelfTest.

Lemma set_bit_1 (c n : Z) :
  0 <= n < 8 ->
  Z.testbit (u8 (Z.lor c 0x02)) n = Z.testbit c n || (n =? 1).
Proof.
  intros Hn. unfold u8. change 256 with (2 ^ 8).
  rewrite Z.mod_pow2_bits_low by lia. rewrite Z.lor_spec.
  f_equal. destruct (Z.eqb_spec n 1) as [-> | Hne].
  - reflexivity.
  - assert (Hcase : n = 0 \/ n = 2 \/ n = 3 \/ n = 4 \/ n = 5 \/ n = 6 \/ n = 7)
      by lia.
    destruct Hcase as [-> | [-> | [-> | [-> | [-> | [-> | ->]]]]]];
      reflexivity.
Qed.

Lemma set_bit_1_already_set (c : Z) :
  is_byte c -> Z.testbit c 1 = true -> u8 (Z.lor c 0x02) = c.
Proof.
  intros Hc Hbit. apply Z.bits_inj'. intros n Hn.
  destruct (Z.ltb_spec n 8) as [Hlow | Hhigh].
  - rewrite set_bit_1 by lia.
    destruct (Z.eqb_spec n 1) as [-> | Hne].
    + rewrite Hbit. reflexivity.
    + apply orb_false_r.
  - unfold u8. change 256 with (2 ^ 8).
    rewrite Z.mod_pow2_bits_high by lia.
    replace c with (c mod 2 ^ 8) by (apply Z.mod_small; exact Hc).
    rewrite Z.mod_pow2_bits_high by lia. reflexivity.
Qed.

(** C9 as stated fails: with 0xFE in the control register, bit 1 already
    set, both writes of lis2mdl_self_test carry 0xFE; the write after the
    excited pass clears nothing and the register ends with bit 1 set. *)
Lemma self_test_bit_stays_set :
  let w' := snd (Scenario.run_self_test Scenario.bit_already_set) in
  filter is_write (log w') =
    [EvTransfer 0x1E [0x62; 0xFE] 0; EvTransfer 0x1E [0x62; 0xFE] 0] /\
  regs (dev w') 0x62 = 0xFE /\
  Z.testbit (regs (dev w') 0x62) 1 = true.
Proof. vm_compute. repeat split; reflexivity. Qed.

(** C9 (amended): lis2mdl_self_test reads the control register once, after
    the baseline pass, writes it back with bit 1 (self test) set before the
    excited pass, and after the excited pass writes back exactly the byte it
    read; these are its only register accesses besides the reads of the
    output registers.  The write-back clears bit 1 only if the byte read had
    it clear: when the byte read has bit 1 set, the two bytes written are the
    same.  On a device whose control register returns the byte last written
    and is left alone by reads of the output registers, the register has bit
    1 set during the excited pass and holds at the end what it held at the
    start, bit 1 included. *)
Theorem self_test_restores_control_register
    (D : Type) (bus : WireBus D) (map : RegisterMap) (w : world D) :
  let c := self_test_c (dev w) in
  (exists report,
     log (snd (lis2mdl_self_test w)) =
       log w
       ++ pass_events 50 50
       ++ [read_event LIS2MDL_CFG_REG_C;
           EvTransfer (u8 LIS2MDL_ADDRESS)
             [u8 LIS2MDL_CFG_REG_C; u8 (Z.lor c 0x02)] 0;
           EvDelay 100]
       ++ pass_events 50 50
       ++ [EvTransfer (u8 LIS2MDL_ADDRESS) [u8 LIS2MDL_CFG_REG_C; c] 0;
           EvDelay 100]
       ++ report /\
     bus_traffic report = []) /\
  c = fst (reg_read LIS2MDL_CFG_REG_C (dev_after_reads 50 (dev w))) /\
  (forall n, 0 <= n < 8 ->
     Z.testbit (u8 (Z.lor c 0x02)) n = Z.testbit c n || (n =? 1)) /\
  (Z.testbit c 1 = true -> u8 (Z.lor c 0x02) = c) /\
  (Z.testbit c 1 = false -> u8 (Z.lor c 0x02) <> c) /\
  dev (snd (lis2mdl_self_test w)) = self_test_final (dev w) /\
  (forall reg_c : D -> Z,
     (forall d, fst (reg_read LIS2MDL_CFG_REG_C d) = reg_c d) ->
     (forall d v, is_byte v -> reg_c (reg_write LIS2MDL_CFG_REG_C v d) = v) ->
     (forall d, reg_c (snd (outx_read d)) = reg_c d) ->
     reg_c (dev (snd (lis2mdl_self_test w))) = reg_c (dev w) /\
     Z.testbit (reg_c (self_test_excited (dev w))) 1 = true /\
     Z.testbit (reg_c (dev (snd (lis2mdl_self_test w)))) 1 =
       Z.testbit (reg_c (dev w)) 1).
Proof.
  cbv zeta. rewrite self_test_eq. cbn [snd log dev].
  assert (Hc : is_byte (self_test_c (dev w))) by apply reg_read_byte.
  split; [| split; [reflexivity |
            split; [| split; [| split; [| split; [reflexivity |]]]]]].
  - eexists. split.
    + unfold self_test_traffic, write_event.
      rewrite (u8_id (self_test_c (dev w)) Hc).
      rewrite <- !app_assoc. reflexivity.
    + reflexivity.
  - intros n Hn. apply set_bit_1. exact Hn.
  - intros Hbit. apply set_bit_1_already_set; assumption.
  - intros Hbit Heq.
    pose proof (set_bit_1 (self_test_c (dev w)) 1 ltac:(lia)) as Hset.
    rewrite Heq, Hbit in Hset. discriminate Hset.
  - intros reg_c Hread Hwrite Hdata.
    assert (Hend : reg_c (self_test_final (dev w)) = reg_c (dev w)).
    { unfold self_test_final. rewrite Hwrite by exact Hc.
      unfold self_test_c. rewrite Hread.
      apply view_after_reads. exact Hdata. }
    split; [exact Hend |]. split.
    + unfold self_test_excited, reg_write.
      rewrite <- (u8_id (u8 (Z.lor (self_test_c (dev w)) 2)))
        by apply u8_range.
      fold (reg_write LIS2MDL_CFG_REG_C (u8 (Z.lor (self_test_c (dev w)) 2))
              (snd (reg_read LIS2MDL_CFG_REG_C (dev_after_reads 50 (dev w))))).
      rewrite Hwrite by apply u8_range.
      rewrite set_bit_1 by lia. apply orb_true_r.
    + rewrite Hend. reflexivity.
Qed.

Lemma self_test_restores_control_register_witness :
  u8 (regs (dev (snd (Scenario.run_self_test Scenario.uneven_response))) 0x62)
  = 0x11.
Proof.
  apply (proj2 (proj2 (proj2 (proj2 (proj2 (proj2
           (self_test_restores_control_register script script_bus
              datasheet_map Scenario.uneven_response))))))
           (fun d => u8 (regs d 0x62))).
  - intros d. reflexivity.
  - intros d v Hv. cbn. rewrite (u8_id v Hv). apply (u8_id v Hv).
  - intros d. reflexivity.
Defined.

(** C1: with every axis at 0 in the baseline pass and x = 40, y = 0, z = 80
    in the excited pass, lis2mdl_self_test prints for My the delta of the x
    axis (60.0000024 mG) although the delta of the y axis is 0, and for Mz the
    delta of the y axis (0) although the delta of the z axis is 120.0000048 mG:
    the second and third numbers are not computed from their own axis. *)
Theorem self_test_prints_x_delta_for_y :
  let l := log (snd (Scenario.run_self_test Scenario.uneven_response)) in
  let delta := axis_delta (Scenario.baseline Scenario.uneven_response)
                          (Scenario.excited Scenario.uneven_response) in
  reported "Mx results:" l = Some (delta AxisX) /\
  reported "My results:" l = Some (delta AxisX) /\
  reported "Mz results:" l = Some (delta AxisY) /\
  delta AxisX = S754_finite false 8444249636864000 (-47) /\
  delta AxisY = S754_zero false /\
  delta AxisZ = S754_finite false 8444249636864000 (-46) /\
  reported "My results:" l <> Some (delta AxisY) /\
  reported "Mz results:" l <> Some (delta AxisZ).
Proof.
  vm_compute. repeat split; try reflexivity; discriminate.
Qed.

(* On every device the three numbers printed are the deltas of the axes x,
   x and y, each from the means of the 50 samples of the two passes. *)
Lemma self_test_report
    (D : Type) (bus : WireBus D) (map : RegisterMap) (w : world D) :
  let delta := axis_delta (samples 50 (dev w))
                 (samples 50 (self_test_excited (dev w))) in
  log (snd (lis2mdl_self_test w)) =
  log w ++ self_test_traffic (dev w)
  ++ report_events (delta AxisX) (delta AxisX) (delta AxisY).
Proof. cbv zeta. rewrite self_test_eq. reflexivity. Qed.

(* With every axis at 10 and then at 40 the three numbers agree; they are
   the double product 30 * 0.0015f * 1000.0, a little above 45. *)
Example self_test_even_response :
  let l := log (snd (Scenario.run_self_test Scenario.even_response)) in
  reported "Mx results:" l = Some (S754_finite false 6333187227648000 (-47)) /\
  reported "My results:" l = Some (S754_finite false 6333187227648000 (-47)) /\
  reported "Mz results:" l = Some (S754_finite false 6333187227648000 (-47)) /\
  F64.of_int 45 = S754_finite false 6333186975989760 (-47).
Proof. vm_compute. repeat split; reflexivity. Qed.

(** ** The interrupt pin *)

Section PinIndependence.
Context {D : Type} `{WireBus D} `{RegisterMap}.

Lemma dd_ret {A} (a : A) : dev_determined (D := D) (ret a).
Proof.
  intros w1 w2 Hd. unfold ret. cbn [fst snd].
  repeat split; try assumption.
  exists []. rewrite !app_nil_r. split; reflexivity.
Qed.

Lemma dd_bind {A B} (m : M D A) (f : A -> M D B) :
  dev_determined m -> (forall a, dev_determined (f a)) ->
  dev_determined (bind m f).
Proof.
  intros Hm Hf w1 w2 Hd. unfold bind.
  destruct (Hm w1 w2 Hd) as (Ha & Hd' & evs & Hl1 & Hl2).
  destruct (m w1) as [a1 w1'], (m w2) as [a2 w2'].
  cbn [fst snd] in *. subst a2.
  destruct (Hf a1 w1' w2' Hd') as (Hb & Hd'' & evs' & Hl1' & Hl2').
  repeat split; try assumption.
  exists (evs ++ evs'). rewrite Hl1', Hl2', Hl1, Hl2, !app_assoc.
  split; reflexivity.
Qed.

Lemma dd_emit (e : event) : dev_determined (D := D) (emit e).
Proof.
  intros w1 w2 Hd. unfold emit. cbn [fst snd dev log].
  repeat split; try assumption.
  exists [e]. split; reflexivity.
Qed.

Lemma dd_transfer (address : Z) (tx rx : list Z) (count : nat) :
  dev_determined (Wire_transfer address tx rx count).
Proof.
  intros w1 w2 Hd. unfold Wire_transfer. rewrite Hd.
  destruct (Wire_respond address tx count (dev w2)) as [resp d'].
  destruct (store_bytes rx (received resp count)) as [rx' over].
  cbn [fst snd dev log].
  repeat split.
  exists [EvTransfer address tx count]. split; reflexivity.
Qed.

Lemma dd_for_loop {S} (body : S -> M D S) (n : nat) :
  (forall s, dev_determined (body s)) ->
  forall s, dev_determined (for_loop n body s).
Proof.
  intros Hbody. induction n as [| n IH]; intros s; cbn [for_loop].
  - apply dd_ret.
  - apply dd_bind; [apply Hbody | exact IH].
Qed.

Ltac dd_step :=
  lazymatch goal with
  | |- dev_determined (bind _ _) => apply dd_bind; [| intro]
  | |- dev_determined (ret _) => apply dd_ret
  | |- dev_determined (emit _) => apply dd_emit
  | |- dev_determined (for_loop _ _ _) => apply dd_for_loop; intro
  | |- dev_determined (Wire_transfer _ _ _ _) => apply dd_transfer
  | |- dev_determined (let (_, _) := ?p in _) => destruct p
  end.

Lemma dd_read_byte (address sub : Z) :
  dev_determined (lis2mdl_read_byte address sub).
Proof. unfold lis2mdl_read_byte. repeat dd_step. Qed.

Lemma dd_write_byte (address sub data : Z) :
  dev_determined (lis2mdl_write_byte address sub data).
Proof. unfold lis2mdl_write_byte. repeat dd_step. Qed.

Lemma dd_data_get : dev_determined lis2mdl_data_get.
Proof.
  unfold lis2mdl_data_get, lis2mdl_read_bytes, lis2mdl_read. repeat dd_step.
Qed.

Lemma dd_temp_get : dev_determined lis2mdl_temp_get.
Proof.
  unfold lis2mdl_temp_get, lis2mdl_read_bytes, lis2mdl_read. repeat dd_step.
Qed.

Ltac dd_driver :=
  repeat first
    [ dd_step
    | lazymatch goal with
      | |- dev_determined (lis2mdl_read_byte _ _) => apply dd_read_byte
      | |- dev_determined (lis2mdl_write_byte _ _ _) => apply dd_write_byte
      | |- dev_determined lis2mdl_data_get => apply dd_data_get
      | |- dev_determined lis2mdl_temp_get => apply dd_temp_get
      end ].

Lemma dd_offset_bias : dev_determined lis2mdl_offset_bias.
Proof.
  unfold lis2mdl_offset_bias, offset_bias_body, Serial_println, delay.
  dd_driver.
Qed.

Lemma dd_self_test : dev_determined lis2mdl_self_test.
Proof.
  unfold lis2mdl_self_test, self_test_body, delay, Serial_println,
    Serial_print, Serial_print_num, Serial_println_num.
  dd_driver.
Qed.

Lemma dd_run_op (op : operation) : dev_determined (run_op op).
Proof.
  destruct op; cbn [run_op].
  - unfold lis2mdl_chip_id_get. dd_driver.
  - unfold lis2mdl_reset, delay. dd_driver.
  - unfold lis2mdl_init. dd_driver.
  - unfold lis2mdl_status. dd_driver.
  - dd_driver.
  - dd_driver.
  - dd_step; [apply dd_offset_bias | dd_step].
  - dd_step; [apply dd_self_test | dd_step].
Qed.

Lemma dd_run_ops (ops : list operation) : dev_determined (run_ops ops).
Proof.
  induction ops as [| op ops IH]; cbn [run_ops].
  - apply dd_ret.
  - dd_step; [apply dd_run_op |]. dd_step; [exact IH | dd_step].
Qed.

Lemma new_world (pin : Z) (w : world D) :
  snd (lis2mdl_new pin w) =
  mkWorld (dev w) (log w ++ [EvPinMode (u8 pin)]) (stray w) (u8 pin)
          (_mRes w).
Proof. reflexivity. Qed.
End PinIndependence.

(** C10: whatever pin lis2mdl_new is given, every sequence of the driver's
    other operations (chip identification, reset, configuration, status,
    vector and temperature reads, calibration, self test) run afterwards on
    the same device returns the same results, leaves the device in the same
    state and asks the same of the collaborators, the bus included: the
    stored pin is never read. *)
Theorem interrupt_pin_does_not_influence_operations
    (D : Type) (bus : WireBus D) (map : RegisterMap) (w : world D)
    (p1 p2 : Z) (ops : list operation) :
  let w1 := snd (lis2mdl_new p1 w) in
  let w2 := snd (lis2mdl_new p2 w) in
  fst (run_ops ops w1) = fst (run_ops ops w2) /\
  dev (snd (run_ops ops w1)) = dev (snd (run_ops ops w2)) /\
  (exists evs,
     log (snd (run_ops ops w1)) = log w1 ++ evs /\
     log (snd (run_ops ops w2)) = log w2 ++ evs) /\
  bus_traffic (log (snd (run_ops ops w1))) =
    bus_traffic (log (snd (run_ops ops w2))).
Proof.
  cbv zeta.
  destruct (dd_run_ops ops (snd (lis2mdl_new p1 w)) (snd (lis2mdl_new p2 w)))
    as (Hres & Hdev & evs & Hl1 & Hl2); [reflexivity |].
  repeat split; try assumption.
  - exists evs. split; assumption.
  - rewrite Hl1, Hl2, !new_world. cbn [log].
    unfold bus_traffic. rewrite !filter_app. reflexivity.
Qed.

(* The pin does reach the collaborators of the constructor itself. *)
Example new_records_the_pin :
  let w := snd (@lis2mdl_new script 7 (start (mkScript Scenario.blank []))) in
  _intPin w = 7 /\ log w = [EvPinMode 7].
Proof. split; reflexivity. Qed.

(** * Further properties *)

(** ** Stepping through a computation *)

Section Steps.
Context {D : Type}.
Variable R : world D -> world D -> Prop.
Hypothesis R_refl : forall w, R w w.
Hypothesis R_trans : forall w1 w2 w3, R w1 w2 -> R w2 w3 -> R w1 w3.

Lemma steps_ret {A} (a : A) : steps_in R (ret a).
Proof. intros w. apply R_refl. Qed.

Lemma steps_bind {A B} (m : M D A) (f : A -> M D B) :
  steps_in R m -> (forall a, steps_in R (f a)) -> steps_in R (bind m f).
Proof.
  intros Hm Hf w. unfold bind. specialize (Hm w).
  destruct (m w) as [a w']. cbn [snd] in Hm.
  eapply R_trans; [exact Hm | apply Hf].
Qed.

Lemma steps_for_loop {S} (body : S -> M D S) (n : nat) :
  (forall s, steps_in R (body s)) -> forall s, steps_in R (for_loop n body s).
Proof.
  intros Hbody. induction n as [| n IH]; intros s; cbn [for_loop].
  - apply steps_ret.
  - apply steps_bind; [apply Hbody | exact IH].
Qed.
End Steps.

Lemma appends_refl {D} (P : event -> Prop) (w : world D) : appends P w w.
Proof. exists []. split; [symmetry; apply app_nil_r | constructor]. Qed.

Lemma appends_trans {D} (P : event -> Prop) (w1 w2 w3 : world D) :
  appends P w1 w2 -> appends P w2 w3 -> appends P w1 w3.
Proof.
  intros (e1 & H1 & F1) (e2 & H2 & F2). exists (e1 ++ e2). split.
  - rewrite H2, H1, app_assoc. reflexivity.
  - apply Forall_app. split; assumption.
Qed.

Lemma appends_emit {D} (P : event -> Prop) (e : event) :
  P e -> steps_in (D := D) (appends P) (emit e).
Proof.
  intros He w. exists [e]. split; [reflexivity | repeat constructor; exact He].
Qed.

Lemma appends_transfer {D} `{WireBus D} (P : event -> Prop) (address : Z)
    (tx rx : list Z) (count : nat) :
  P (EvTransfer address tx count) ->
  steps_in (appends P) (Wire_transfer address tx rx count).
Proof.
  intros He w. unfold Wire_transfer.
  destruct (Wire_respond address tx count (dev w)) as [resp d'].
  destruct (store_bytes rx (received resp count)) as [rx' over].
  exists [EvTransfer address tx count].
  split; [reflexivity | repeat constructor; exact He].
Qed.

Lemma same_stray_trans {D} (w1 w2 w3 : world D) :
  same_stray w1 w2 -> same_stray w2 w3 -> same_stray w1 w3.
Proof. unfold same_stray. congruence. Qed.

Lemma same_stray_emit {D} (e : event) : steps_in (D := D) same_stray (emit e).
Proof. intros w. reflexivity. Qed.

(* A transfer that asks for no more bytes than its buffer holds stores
   nothing past it. *)
Lemma same_stray_transfer {D} `{WireBus D} (address : Z) (tx rx : list Z)
    (count : nat) :
  (count <= length rx)%nat ->
  steps_in same_stray (Wire_transfer address tx rx count).
Proof.
  intros Hfit w. unfold Wire_transfer, same_stray, store_bytes.
  destruct (Wire_respond address tx count (dev w)) as [resp d'].
  cbn [snd stray].
  rewrite skipn_all2; [apply app_nil_r |].
  unfold received. rewrite length_map, length_seq. exact Hfit.
Qed.

Lemma burst_subaddress_bit (reg : Z) :
  Z.testbit (u8 (Z.lor 0x80 reg)) 7 = true.
Proof.
  unfold u8. change 256 with (2 ^ 8).
  rewrite Z.mod_pow2_bits_low by lia. rewrite Z.lor_spec. reflexivity.
Qed.

(* One step through the structure of a computation; rel proves that the
   relation is reflexive and transitive. *)
Ltac steps_structure rel :=
  lazymatch goal with
  | |- steps_in _ (bind _ _) => apply steps_bind; [rel | | intro]
  | |- steps_in _ (ret _) => apply steps_ret; rel
  | |- steps_in _ (for_loop _ _ _) => apply steps_for_loop; [rel | rel | intro]
  | |- steps_in _ (let (_, _) := ?p in _) => destruct p
  end.

Ltac appends_rel :=
  first [ apply appends_refl | apply appends_trans ].

Ltac unfold_driver :=
  unfold lis2mdl_offset_bias, lis2mdl_self_test, offset_bias_body,
    self_test_body, lis2mdl_chip_id_get, lis2mdl_reset, lis2mdl_init,
    lis2mdl_status, lis2mdl_data_get, lis2mdl_temp_get, lis2mdl_read_bytes,
    lis2mdl_read, lis2mdl_read_byte, lis2mdl_write_byte, delay, pinMode,
    Serial_println, Serial_print, Serial_print_num, Serial_println_num.

Ltac well_formed_event :=
  cbn [well_formed];
  split; [reflexivity |];
  split; [repeat constructor; apply u8_range |];
  first
    [ left; reflexivity
    | right; split; [lia | apply burst_subaddress_bit]
    | split; [reflexivity |];
      first [ left; reflexivity
            | right; left; reflexivity
            | right; right; reflexivity ] ].

Ltac well_formed_steps :=
  repeat first
    [ steps_structure appends_rel
    | lazymatch goal with
      | |- steps_in _ (emit _) => apply appends_emit; exact I
      | |- steps_in _ (Wire_transfer _ _ _ _) =>
          apply appends_transfer; well_formed_event
      end ].

Section WellFormed.
Context {D : Type} `{WireBus D} `{RegisterMap}.

Lemma run_op_well_formed (op : operation) :
  steps_in (appends well_formed) (run_op op).
Proof. destruct op; cbn [run_op]; unfold_driver; well_formed_steps. Qed.

Lemma run_ops_well_formed (ops : list operation) :
  steps_in (appends well_formed) (run_ops ops).
Proof.
  induction ops as [| op ops IH]; cbn [run_ops].
  - steps_structure appends_rel.
  - steps_structure appends_rel; [apply run_op_well_formed |].
    steps_structure appends_rel; [exact IH |].
    steps_structure appends_rel.
Qed.
End WellFormed.

(** ** The bus protocol of the driver *)

(** X1: every transfer any sequence of driver operations issues goes to the
    address of the device and sends bytes only; it is a read of one register,
    a read of several registers with the auto-increment bit of the
    subaddress set, or a write of one byte to CFG_REG_A, CFG_REG_B or
    CFG_REG_C.  The driver never addresses another device and never writes
    another register. *)
Theorem every_transfer_is_well_formed
    (D : Type) (bus : WireBus D) (map : RegisterMap) (w : world D)
    (ops : list operation) :
  exists evs,
    log (snd (run_ops ops w)) = log w ++ evs /\ Forall well_formed evs.
Proof. apply run_ops_well_formed. Qed.

(* The registers of a register file after the driver's accesses. *)
Section RegisterAccess.
Context {D : Type} `{WireBus D} `{RegisterMap}.
Variable reg : D -> Z -> Z.
Hypothesis Hfile : register_file reg.

Lemma reg_write_spec (sub data : Z) (d : D) (r : Z) :
  reg (reg_write sub data d) r = if r =? u8 sub then u8 data else reg d r.
Proof.
  destruct Hfile as (Hwrite & _ & _). unfold reg_write.
  apply Hwrite; apply u8_range.
Qed.

Lemma reg_read_keeps (sub : Z) (d : D) (r : Z) :
  reg (snd (reg_read sub d)) r = reg d r.
Proof. destruct Hfile as (_ & Hread & _). unfold reg_read. apply Hread. Qed.

Lemma reg_read_value (sub : Z) (d : D) :
  Z.testbit (u8 sub) 7 = false -> fst (reg_read sub d) = reg d (u8 sub).
Proof.
  destruct Hfile as (_ & _ & Hval). intros Hbit. unfold reg_read.
  apply Hval; [apply u8_range | exact Hbit].
Qed.

Lemma outx_read_keeps (d : D) (r : Z) : reg (snd (outx_read d)) r = reg d r.
Proof. destruct Hfile as (_ & Hread & _). unfold outx_read. apply Hread. Qed.

Lemma reads_keep (n : nat) : forall d r, reg (dev_after_reads n d) r = reg d r.
Proof.
  induction n as [| n IH]; intros d r; cbn [dev_after_reads].
  - reflexivity.
  - rewrite IH. apply outx_read_keeps.
Qed.

Lemma same_regs_refl (w : world D) : same_regs reg w w.
Proof. intros r. reflexivity. Qed.

Lemma same_regs_trans (w1 w2 w3 : world D) :
  same_regs reg w1 w2 -> same_regs reg w2 w3 -> same_regs reg w1 w3.
Proof. intros H12 H23 r. rewrite H23. apply H12. Qed.

Lemma same_regs_emit (e : event) : steps_in (same_regs reg) (emit e).
Proof. intros w r. reflexivity. Qed.

Lemma same_regs_read (sub : Z) (rx : list Z) (count : nat) :
  steps_in (same_regs reg)
    (Wire_transfer (u8 LIS2MDL_ADDRESS) [sub] rx count).
Proof.
  destruct Hfile as (_ & Hread & _).
  intros w r. unfold Wire_transfer.
  pose proof (Hread (dev w) sub count r) as Hr.
  destruct (Wire_respond (u8 LIS2MDL_ADDRESS) [sub] count (dev w))
    as [resp d'].
  destruct (store_bytes rx (received resp count)) as [rx' over].
  exact Hr.
Qed.
End RegisterAccess.

Ltac no_write_steps :=
  repeat first
    [ steps_structure appends_rel
    | lazymatch goal with
      | |- steps_in _ (emit _) => apply appends_emit; reflexivity
      | |- steps_in _ (Wire_transfer _ _ _ _) =>
          apply appends_transfer; reflexivity
      end ].

Ltac same_regs_rel :=
  first [ apply same_regs_refl | apply same_regs_trans ].

Ltac same_regs_steps Hfile :=
  repeat first
    [ steps_structure same_regs_rel
    | lazymatch goal with
      | |- steps_in _ (emit _) => apply same_regs_emit
      | |- steps_in _ (Wire_transfer _ _ _ _) =>
          apply (same_regs_read _ Hfile)
      end ].

Ltac same_stray_rel :=
  first [ intro; reflexivity | apply same_stray_trans ].

Ltac same_stray_steps :=
  repeat first
    [ steps_structure same_stray_rel
    | lazymatch goal with
      | |- steps_in _ (emit _) => apply same_stray_emit
      | |- steps_in _ (Wire_transfer _ _ _ _) =>
          apply same_stray_transfer; cbn; lia
      end ].

Section Frames.
Context {D : Type} `{WireBus D} `{RegisterMap}.

Lemma read_only_no_write (op : operation) :
  read_only op = true -> steps_in (appends not_a_write) (run_op op).
Proof.
  destruct op; cbn [read_only run_op]; intros Hro; try discriminate;
    unfold_driver; no_write_steps.
Qed.

Lemma read_only_same_regs (reg : D -> Z -> Z) (op : operation) :
  register_file reg -> read_only op = true ->
  steps_in (same_regs reg) (run_op op).
Proof.
  intros Hfile.
  destruct op; cbn [read_only run_op]; intros Hro; try discriminate;
    unfold_driver; same_regs_steps Hfile.
Qed.

Lemma no_vector_read_same_stray (op : operation) :
  no_vector_read op = true -> steps_in same_stray (run_op op).
Proof.
  destruct op; cbn [no_vector_read run_op]; intros Hnv; try discriminate;
    unfold_driver; same_stray_steps.
Qed.
End Frames.

(** X2: a sequence of the read operations (chip identification, status,
    vector read, temperature read, calibration) issues no register write, and
    on a device whose registers form a register file it leaves every register
    as it was. *)
Theorem read_operations_never_write
    (D : Type) (bus : WireBus D) (map : RegisterMap) (w : world D)
    (ops : list operation) :
  forallb read_only ops = true ->
  (exists evs,
     log (snd (run_ops ops w)) = log w ++ evs /\ Forall not_a_write evs) /\
  (forall reg : D -> Z -> Z, register_file reg ->
     forall r, reg (dev (snd (run_ops ops w))) r = reg (dev w) r).
Proof.
  intros Hops. split.
  - revert w. change (steps_in (appends not_a_write) (run_ops ops)).
    induction ops as [| op ops IH]; cbn [run_ops].
    + steps_structure appends_rel.
    + cbn [forallb] in Hops. apply andb_true_iff in Hops.
      destruct Hops as [Hop Hrest].
      steps_structure appends_rel; [apply read_only_no_write; exact Hop |].
      steps_structure appends_rel; [apply IH; exact Hrest |].
      steps_structure appends_rel.
  - intros reg Hfile. revert w.
    change (steps_in (same_regs reg) (run_ops ops)).
    induction ops as [| op ops IH]; cbn [run_ops].
    + steps_structure same_regs_rel.
    + cbn [forallb] in Hops. apply andb_true_iff in Hops.
      destruct Hops as [Hop Hrest].
      steps_structure same_regs_rel;
        [apply read_only_same_regs; assumption |].
      steps_structure same_regs_rel; [apply IH; exact Hrest |].
      steps_structure same_regs_rel.
Qed.

(* The scripted device is a register file, read through u8. *)
Lemma script_register_file :
  @register_file script script_bus datasheet_map (fun d r => u8 (regs d r)).
Proof.
  repeat split.
  - intros d sub v r Hsub Hv. cbn.
    destruct (r =? sub); [apply u8_id; exact Hv | reflexivity].
  - intros d sub n r. unfold Wire_respond, script_bus, script_respond.
    destruct (Z.testbit sub 7); reflexivity.
  - intros d sub Hsub Hbit. unfold Wire_respond, script_bus, script_respond.
    rewrite Hbit. reflexivity.
Qed.

Lemma read_operations_never_write_witness :
  u8 (regs (dev (snd (@run_ops script script_bus datasheet_map
                        [OpChipId; OpStatus; OpDataGet; OpTempGet]
                        Scenario.uneven_response))) 0x62) = 0x11.
Proof.
  apply (proj2 (read_operations_never_write script script_bus datasheet_map
                  Scenario.uneven_response
                  [OpChipId; OpStatus; OpDataGet; OpTempGet] eq_refl)
           (fun d r => u8 (regs d r)) script_register_file 0x62).
Defined.

(** X3: no operation other than those that read the magnetometer vector
    stores a byte outside its receive buffer: chip identification, reset,
    configuration, status and temperature read ask the bus for exactly as
    many bytes as their buffers hold. *)
Theorem other_operations_stay_in_bounds
    (D : Type) (bus : WireBus D) (map : RegisterMap) (w : world D)
    (ops : list operation) :
  forallb no_vector_read ops = true ->
  stray (snd (run_ops ops w)) = stray w.
Proof.
  intros Hops. revert w. change (steps_in same_stray (run_ops ops)).
  induction ops as [| op ops IH]; cbn [run_ops].
  - steps_structure same_stray_rel.
  - cbn [forallb] in Hops. apply andb_true_iff in Hops.
    destruct Hops as [Hop Hrest].
    steps_structure same_stray_rel;
      [apply no_vector_read_same_stray; exact Hop |].
    steps_structure same_stray_rel; [apply IH; exact Hrest |].
    steps_structure same_stray_rel.
Qed.

Lemma other_operations_stay_in_bounds_witness :
  stray (snd (@run_ops script script_bus datasheet_map
                [OpChipId; OpReset; OpInit 3; OpStatus; OpTempGet]
                Scenario.one_vector)) = [].
Proof.
  apply (other_operations_stay_in_bounds script script_bus datasheet_map
           Scenario.one_vector
           [OpChipId; OpReset; OpInit 3; OpStatus; OpTempGet]).
  reflexivity.
Defined.

(** ** Reset and configuration *)

Lemma set_bit (c k n : Z) :
  0 <= k < 8 -> 0 <= n < 8 ->
  Z.testbit (u8 (Z.lor c (2 ^ k))) n = Z.testbit c n || (n =? k).
Proof.
  intros Hk Hn. unfold u8. change 256 with (2 ^ 8).
  rewrite Z.mod_pow2_bits_low by lia. rewrite Z.lor_spec.
  rewrite Z.pow2_bits_eqb by lia. rewrite (Z.eqb_sym k n). reflexivity.
Qed.

Section ResetInit.
Context {D : Type} `{WireBus D} `{RegisterMap}.

Lemma reset_eq (w : world D) :
  lis2mdl_reset w =
  (tt,
   mkWorld
     (reg_write LIS2MDL_CFG_REG_A
        (Z.lor (fst (reg_read LIS2MDL_CFG_REG_A (dev w))) 0x40)
        (reg_write LIS2MDL_CFG_REG_A
           (Z.lor (fst (reg_read LIS2MDL_CFG_REG_A (dev w))) 0x20)
           (snd (reg_read LIS2MDL_CFG_REG_A (dev w)))))
     (log w ++
      [read_event LIS2MDL_CFG_REG_A;
       write_event LIS2MDL_CFG_REG_A
         (Z.lor (fst (reg_read LIS2MDL_CFG_REG_A (dev w))) 0x20);
       EvDelay 1;
       write_event LIS2MDL_CFG_REG_A
         (Z.lor (fst (reg_read LIS2MDL_CFG_REG_A (dev w))) 0x40);
       EvDelay 100])
     (stray w) (_intPin w) (_mRes w)).
Proof.
  unfold lis2mdl_reset, delay.
  repeat (unfold bind at 1;
          first [ rewrite read_byte_eq | rewrite write_byte_eq
                | rewrite emit_eq ];
          cbv beta iota; cbn [dev log stray _intPin _mRes fst snd]).
  rewrite emit_eq. cbn [dev log stray _intPin _mRes].
  rewrite <- !app_assoc. reflexivity.
Qed.

Lemma init_eq (MODR : Z) (w : world D) :
  lis2mdl_init MODR w =
  (tt,
   mkWorld
     (reg_write LIS2MDL_CFG_REG_C 0x11
        (reg_write LIS2MDL_CFG_REG_B 0x01
           (reg_write LIS2MDL_CFG_REG_A (Z.lor 0x80 (Z.shiftl (u8 MODR) 2))
              (dev w))))
     (log w ++
      [write_event LIS2MDL_CFG_REG_A (Z.lor 0x80 (Z.shiftl (u8 MODR) 2));
       write_event LIS2MDL_CFG_REG_B 0x01;
       write_event LIS2MDL_CFG_REG_C 0x11])
     (stray w) (_intPin w) (_mRes w)).
Proof.
  unfold lis2mdl_init.
  repeat (unfold bind at 1; rewrite write_byte_eq;
          cbv beta iota; cbn [dev log stray _intPin _mRes fst snd]).
  rewrite write_byte_eq. cbn [dev log stray _intPin _mRes].
  rewrite <- !app_assoc. reflexivity.
Qed.
End ResetInit.

(** X4: lis2mdl_reset reads CFG_REG_A once and writes it twice, with a 1 ms
    delay after the first write and 100 ms after the second.  Both bytes
    written come from the byte read: the first is that byte with bit 5 (soft
    reset) set, the second that byte with bit 6 (boot) set, so the boot write
    carries the reset bit only if the register had it, and every other bit of
    the register is written back as read. *)
Theorem reset_writes_reset_then_boot
    (D : Type) (bus : WireBus D) (map : RegisterMap) (w : world D) :
  let temp := fst (reg_read LIS2MDL_CFG_REG_A (dev w)) in
  log (snd (lis2mdl_reset w)) =
    log w ++
    [read_event LIS2MDL_CFG_REG_A;
     EvTransfer (u8 LIS2MDL_ADDRESS)
       [u8 LIS2MDL_CFG_REG_A; u8 (Z.lor temp 0x20)] 0;
     EvDelay 1;
     EvTransfer (u8 LIS2MDL_ADDRESS)
       [u8 LIS2MDL_CFG_REG_A; u8 (Z.lor temp 0x40)] 0;
     EvDelay 100] /\
  (forall n, 0 <= n < 8 ->
     Z.testbit (u8 (Z.lor temp 0x20)) n = Z.testbit temp n || (n =? 5)) /\
  (forall n, 0 <= n < 8 ->
     Z.testbit (u8 (Z.lor temp 0x40)) n = Z.testbit temp n || (n =? 6)) /\
  stray (snd (lis2mdl_reset w)) = stray w.
Proof.
  cbv zeta. rewrite reset_eq. cbn [snd log stray].
  split; [reflexivity |]. split; [| split; [| reflexivity]].
  - intros n Hn. apply (set_bit _ 5 n); lia.
  - intros n Hn. apply (set_bit _ 6 n); lia.
Qed.

Lemma reset_writes_reset_then_boot_witness :
  Z.testbit
    (u8 (Z.lor (fst (@reg_read script script_bus datasheet_map 0x60
                       (dev Scenario.uneven_response))) 0x20)) 5 = true.
Proof.
  apply (proj1 (proj2 (reset_writes_reset_then_boot script script_bus
                         datasheet_map Scenario.uneven_response)) 5).
  lia.
Defined.

Lemma init_byte_bits (MODR n : Z) :
  0 <= n < 8 ->
  Z.testbit (u8 (Z.lor 0x80 (Z.shiftl (u8 MODR) 2))) n =
  (n =? 7) || ((2 <=? n) && Z.testbit (u8 MODR) (n - 2)).
Proof.
  intros Hn. unfold u8 at 1. change 256 with (2 ^ 8).
  rewrite Z.mod_pow2_bits_low by lia. rewrite Z.lor_spec.
  change 128 with (2 ^ 7). rewrite Z.pow2_bits_eqb by lia.
  rewrite (Z.eqb_sym 7 n). f_equal.
  destruct (Z.leb_spec 2 n) as [Hge | Hlt].
  - rewrite Z.shiftl_spec by lia. reflexivity.
  - rewrite Z.shiftl_spec_low by lia. reflexivity.
Qed.

Lemma init_byte_in_range (MODR : Z) :
  0 <= MODR < 32 -> u8 (Z.lor 0x80 (Z.shiftl (u8 MODR) 2)) = 128 + 4 * MODR.
Proof.
  intros HM. rewrite (u8_id MODR) by (unfold is_byte; lia).
  rewrite Z.shiftl_mul_pow2 by lia. change (2 ^ 2) with 4.
  rewrite Z.lor_comm.
  assert (Hland : Z.land (MODR * 4) 128 = 0).
  { apply Z.bits_inj'. intros n Hn. rewrite Z.land_spec, Z.bits_0.
    change 128 with (2 ^ 7). rewrite Z.pow2_bits_eqb by lia.
    destruct (Z.eqb_spec 7 n) as [<- | Hne]; [| apply andb_false_r].
    rewrite andb_true_r.
    replace (MODR * 4) with ((MODR * 4) mod 2 ^ 7)
      by (apply Z.mod_small; change (2 ^ 7) with 128; lia).
    apply Z.mod_pow2_bits_high. lia. }
  rewrite <- Z.lxor_lor by exact Hland.
  rewrite <- Z.add_nocarry_lxor by exact Hland.
  rewrite u8_id by (unfold is_byte; lia). lia.
Qed.

(** X5: lis2mdl_init writes CFG_REG_A, CFG_REG_B and CFG_REG_C in this order
    and reads nothing.  The byte for CFG_REG_A always has bit 7 (temperature
    compensation) set and bits 0 and 1 (continuous mode) clear, and its bits
    2 to 6 are bits 0 to 4 of MODR: the rate is not checked, so a MODR of 4
    or more reaches the bits above the rate field, and bits 5 to 7 of MODR
    are dropped.  For MODR below 32 the byte is 0x80 + 4 * MODR. *)
Theorem init_writes_three_registers
    (D : Type) (bus : WireBus D) (map : RegisterMap) (w : world D)
    (MODR : Z) :
  let a := u8 (Z.lor 0x80 (Z.shiftl (u8 MODR) 2)) in
  log (snd (lis2mdl_init MODR w)) =
    log w ++
    [EvTransfer (u8 LIS2MDL_ADDRESS) [u8 LIS2MDL_CFG_REG_A; a] 0;
     EvTransfer (u8 LIS2MDL_ADDRESS) [u8 LIS2MDL_CFG_REG_B; 0x01] 0;
     EvTransfer (u8 LIS2MDL_ADDRESS) [u8 LIS2MDL_CFG_REG_C; 0x11] 0] /\
  Z.testbit a 7 = true /\ Z.testbit a 0 = false /\ Z.testbit a 1 = false /\
  (forall n, 2 <= n < 7 -> Z.testbit a n = Z.testbit (u8 MODR) (n - 2)) /\
  (0 <= MODR < 32 -> a = 128 + 4 * MODR).
Proof.
  cbv zeta. rewrite init_eq. cbn [snd log].
  split; [reflexivity |].
  split; [rewrite init_byte_bits by lia; reflexivity |].
  split; [rewrite init_byte_bits by lia; reflexivity |].
  split; [rewrite init_byte_bits by lia; reflexivity |].
  split.
  - intros n Hn. rewrite init_byte_bits by lia.
    destruct (Z.eqb_spec n 7) as [-> | _]; [lia |].
    destruct (Z.leb_spec 2 n); [reflexivity | lia].
  - apply init_byte_in_range.
Qed.

Lemma init_writes_three_registers_witness :
  u8 (Z.lor 0x80 (Z.shiftl (u8 3) 2)) = 0x8C.
Proof.
  apply (proj2 (proj2 (proj2 (proj2 (proj2
           (init_writes_three_registers script script_bus datasheet_map
              Scenario.one_vector 3)))))).
  lia.
Defined.

(* A rate of 8 is accepted and sets bit 5, the soft reset bit. *)
Example init_rate_8_sets_bit_5 :
  u8 (Z.lor 0x80 (Z.shiftl (u8 8) 2)) = 0xA0.
Proof. reflexivity. Qed.

(** X6: on a device whose registers form a register file with three
    distinct configuration addresses, lis2mdl_reset followed by
    lis2mdl_init leaves CFG_REG_A with the configuration byte (not with the
    boot bit the reset wrote last), CFG_REG_B with 0x01 and CFG_REG_C with
    0x11, whatever the registers held before, and changes no other
    register. *)
Theorem init_after_reset_configures_registers
    (D : Type) (bus : WireBus D) (map : RegisterMap) (w : world D)
    (MODR : Z) (reg : D -> Z -> Z) :
  register_file reg -> distinct_cfg ->
  let w' := snd ((lis2mdl_reset ;;; lis2mdl_init MODR) w) in
  reg (dev w') (u8 LIS2MDL_CFG_REG_A) =
    u8 (Z.lor 0x80 (Z.shiftl (u8 MODR) 2)) /\
  reg (dev w') (u8 LIS2MDL_CFG_REG_B) = 0x01 /\
  reg (dev w') (u8 LIS2MDL_CFG_REG_C) = 0x11 /\
  (forall r, r <> u8 LIS2MDL_CFG_REG_A -> r <> u8 LIS2MDL_CFG_REG_B ->
             r <> u8 LIS2MDL_CFG_REG_C ->
             reg (dev w') r = reg (dev w) r).
Proof.
  intros Hfile (Hab & Hac & Hbc). cbv zeta. unfold bind.
  rewrite reset_eq. rewrite init_eq. cbn [snd dev].
  assert (Hw : forall sub data d r,
             reg (reg_write sub data d) r =
             if r =? u8 sub then u8 data else reg d r)
    by (intros; apply reg_write_spec; exact Hfile).
  repeat split.
  - rewrite !Hw.
    destruct (Z.eqb_spec (u8 LIS2MDL_CFG_REG_A) (u8 LIS2MDL_CFG_REG_C));
      [congruence |].
    destruct (Z.eqb_spec (u8 LIS2MDL_CFG_REG_A) (u8 LIS2MDL_CFG_REG_B));
      [congruence |].
    rewrite Z.eqb_refl. reflexivity.
  - rewrite !Hw.
    destruct (Z.eqb_spec (u8 LIS2MDL_CFG_REG_B) (u8 LIS2MDL_CFG_REG_C));
      [congruence |].
    rewrite Z.eqb_refl. reflexivity.
  - rewrite !Hw. rewrite Z.eqb_refl. reflexivity.
  - intros r Hra Hrb Hrc. rewrite !Hw.
    destruct (Z.eqb_spec r (u8 LIS2MDL_CFG_REG_C)); [congruence |].
    destruct (Z.eqb_spec r (u8 LIS2MDL_CFG_REG_B)); [congruence |].
    destruct (Z.eqb_spec r (u8 LIS2MDL_CFG_REG_A)); [congruence |].
    apply reg_read_keeps. exact Hfile.
Qed.

Lemma script_distinct_cfg : @distinct_cfg datasheet_map.
Proof. repeat split; discriminate. Qed.

Lemma init_after_reset_configures_registers_witness :
  let w' := snd ((@lis2mdl_reset script script_bus datasheet_map ;;;
                  @lis2mdl_init script script_bus datasheet_map 3)
                   Scenario.uneven_response) in
  u8 (regs (dev w') 0x60) = 0x8C /\
  u8 (regs (dev w') 0x61) = 0x01 /\
  u8 (regs (dev w') 0x62) = 0x11 /\
  (forall r, r <> 0x60 -> r <> 0x61 -> r <> 0x62 ->
             u8 (regs (dev w') r) = u8 (regs (dev Scenario.uneven_response) r)).
Proof.
  apply (init_after_reset_configures_registers script script_bus
           datasheet_map Scenario.uneven_response 3
           (fun d r => u8 (regs d r)) script_register_file
           script_distinct_cfg).
Defined.

(** ** Raw data *)

(** X7: lis2mdl_temp_get issues one transfer, asking for 2 bytes from the
    temperature registers with the auto-increment bit set, and returns the
    little-endian signed 16-bit value of the two bytes received, low byte
    first; the value is within -32768..32767 and nothing is stored outside
    the two-byte buffer. *)
Theorem temp_get_decodes_little_endian
    (D : Type) (bus : WireBus D) (map : RegisterMap) (w : world D) :
  let sub := u8 (Z.lor 0x80 LIS2MDL_TEMP_OUT_L_REG) in
  let resp := fst (Wire_respond (u8 LIS2MDL_ADDRESS) [sub] 2 (dev w)) in
  fst (lis2mdl_temp_get w) = le_int16 (rx_byte resp 0) (rx_byte resp 1) /\
  is_int16 (fst (lis2mdl_temp_get w)) /\
  log (snd (lis2mdl_temp_get w)) =
    log w ++ [EvTransfer (u8 LIS2MDL_ADDRESS) [sub] 2] /\
  Z.testbit sub 7 = true /\
  stray (snd (lis2mdl_temp_get w)) = stray w.
Proof.
  cbv zeta.
  unfold lis2mdl_temp_get, lis2mdl_read_bytes, lis2mdl_read, bind, ret,
    Wire_transfer.
  destruct (Wire_respond (u8 LIS2MDL_ADDRESS)
              [u8 (Z.lor 128 LIS2MDL_TEMP_OUT_L_REG)] 2 (dev w)) as [resp d'].
  cbn [fst snd log stray store_bytes uninit repeat length received seq List.map
       firstn skipn app nth].
  rewrite msb_lsb_le_int16 by apply rx_byte_range.
  repeat split.
  - apply le_int16_range; apply rx_byte_range.
  - apply le_int16_range; apply rx_byte_range.
  - apply burst_subaddress_bit.
  - apply app_nil_r.
Qed.

(* The bytes FE FF are -2, the bytes 34 12 are 0x1234. *)
Example temp_get_examples :
  fst (@lis2mdl_temp_get script script_bus datasheet_map
         (start (mkScript Scenario.blank [[0xFE; 0xFF]]))) = -2 /\
  fst (@lis2mdl_temp_get script script_bus datasheet_map
         (start (mkScript Scenario.blank [[0x34; 0x12]]))) = 0x1234.
Proof. split; reflexivity. Qed.

Lemma le_int16_lo_hi (lo hi : Z) :
  is_byte lo -> is_byte hi -> lo_hi (le_int16 lo hi) = [lo; hi].
Proof.
  unfold is_byte, lo_hi, le_int16. intros Hlo Hhi.
  destruct (Z.ltb_spec (lo + 256 * hi) 32768) as [Hs | Hb].
  - f_equal; [| f_equal]; Z.to_euclidean_division_equations; lia.
  - f_equal; [| f_equal]; Z.to_euclidean_division_equations; lia.
Qed.

Lemma lo_hi_le_int16 (v : Z) :
  is_int16 v -> le_int16 (v mod 256) ((v / 256) mod 256) = v.
Proof.
  unfold is_int16, le_int16. intros Hv.
  destruct (Z.ltb_spec (v mod 256 + 256 * ((v / 256) mod 256)) 32768);
    Z.to_euclidean_division_equations; lia.
Qed.

(** X8: the decoding ((int16_t) hi << 8) | lo of the vector and temperature
    reads loses nothing: it maps the 65536 pairs of bytes one-to-one onto the
    signed 16-bit values.  From the decoded value the two bytes are
    recovered as its low and high byte, and every value in -32768..32767 is
    the decoding of its own low and high byte. *)
Theorem msb_lsb_is_a_bijection :
  (forall hi lo, is_byte hi -> is_byte lo ->
     is_int16 (msb_lsb hi lo) /\ lo_hi (msb_lsb hi lo) = [lo; hi]) /\
  (forall v, is_int16 v ->
     is_byte (v mod 256) /\ is_byte ((v / 256) mod 256) /\
     msb_lsb ((v / 256) mod 256) (v mod 256) = v).
Proof.
  split.
  - intros hi lo Hhi Hlo. rewrite msb_lsb_le_int16 by assumption. split.
    + apply le_int16_range; assumption.
    + apply le_int16_lo_hi; assumption.
  - intros v Hv.
    assert (Hlo : is_byte (v mod 256)) by apply u8_range.
    assert (Hhi : is_byte ((v / 256) mod 256)) by apply u8_range.
    repeat split; try apply Hlo; try apply Hhi.
    rewrite msb_lsb_le_int16 by assumption. apply lo_hi_le_int16. exact Hv.
Qed.

Lemma msb_lsb_is_a_bijection_witness :
  lo_hi (msb_lsb 0x80 0x00) = [0x00; 0x80] /\ msb_lsb 0xFF 0xCE = -50.
Proof.
  split.
  - apply (proj1 msb_lsb_is_a_bijection 0x80 0x00);
      unfold is_byte; lia.
  - apply (proj2 msb_lsb_is_a_bijection (-50)). unfold is_int16. lia.
Defined.

(** ** The calibration pass *)

Lemma fold_max_ge_elem (l : list Z) :
  forall m v, In v l -> v <= fold_left Z.max l m.
Proof.
  induction l as [| x l IH]; intros m v Hin; cbn [fold_left].
  - destruct Hin.
  - destruct Hin as [-> | Hin].
    + pose proof (fold_max_ge_init l (Z.max m v)). lia.
    + apply IH. exact Hin.
Qed.

Lemma fold_min_le_elem (l : list Z) :
  forall m v, In v l -> fold_left Z.min l m <= v.
Proof.
  induction l as [| x l IH]; intros m v Hin; cbn [fold_left].
  - destruct Hin.
  - destruct Hin as [-> | Hin].
    + pose proof (fold_min_le_init l (Z.min m v)). lia.
    + apply IH. exact Hin.
Qed.

Lemma extrema_enclose (l : list (arr3 Z)) (s : arr3 Z) (jj : axis) :
  In s l -> axis_min l jj <= get s jj <= axis_max l jj.
Proof.
  intros Hin. unfold axis_min, axis_max. split.
  - apply fold_min_le_elem. apply in_map_iff. exists s. split; trivial.
  - apply fold_max_ge_elem. apply in_map_iff. exists s. split; trivial.
Qed.

Lemma samples_not_empty {D} `{WireBus D} `{RegisterMap} (n : nat) (d : D) :
  samples (S n) d <> [].
Proof. unfold samples. cbn [bursts List.map]. discriminate. Qed.

Lemma scale_basis_range (l : list (arr3 Z)) (jj : axis) :
  Forall (fun s => forall jj, is_int16 (get s jj)) l -> l <> [] ->
  0 <= get (scale_basis
              (fst (fold_left extrema_update l (mag_max_init, mag_min_init)))
              (snd (fold_left extrema_update l (mag_max_init, mag_min_init))))
           jj <= 32767.
Proof.
  intros Hl Hne. rewrite running_extrema. cbn [fst snd].
  destruct (extrema_in_range l Hl) as [Hx Hn].
  rewrite scale_basis_get by assumption.
  pose proof (axis_max_ge_min l jj Hne) as Hord.
  pose proof (axis_max_range l jj Hl) as Hmax.
  pose proof (axis_min_range l jj Hl) as Hmin.
  unfold is_int16 in Hmax, Hmin.
  assert (Hq : 0 <= Z.quot (axis_max l jj - axis_min l jj) 2 <= 32767)
    by (Z.to_euclidean_division_equations; lia).
  destruct jj; exact Hq.
Qed.

Lemma running_extrema_enclose (l : list (arr3 Z)) (s : arr3 Z) (jj : axis) :
  In s l ->
  get (snd (fold_left extrema_update l (mag_max_init, mag_min_init))) jj
  <= get s jj
  <= get (fst (fold_left extrema_update l (mag_max_init, mag_min_init))) jj.
Proof.
  intros Hin. rewrite running_extrema. cbn [fst snd].
  pose proof (extrema_enclose l s jj Hin) as H. destruct jj; exact H.
Qed.

(** X9: at the end of the sampling loop of lis2mdl_offset_bias every one of
    the 4000 samples lies, axis by axis, between mag_min and mag_max; the
    scale basis (mag_max - mag_min) / 2 of every axis is between 0 and 32767,
    so it is never negative, and the sum of the three is between 0 and
    98301. *)
Theorem calibration_extrema_enclose_the_samples
    (D : Type) (bus : WireBus D) (map : RegisterMap) (w : world D)
    (jj : axis) :
  let l := samples 4000 (dev w) in
  let st := fold_left extrema_update l (mag_max_init, mag_min_init) in
  (forall s, In s l ->
     get (snd st) jj <= get s jj <= get (fst st) jj) /\
  0 <= get (scale_basis (fst st) (snd st)) jj <= 32767 /\
  0 <= get (scale_basis (fst st) (snd st)) AxisX
       + get (scale_basis (fst st) (snd st)) AxisY
       + get (scale_basis (fst st) (snd st)) AxisZ <= 98301.
Proof.
  cbv zeta.
  pose proof (samples_range 4000 (dev w)) as Hl.
  pose proof (samples_not_empty 3999 (dev w)) as Hne.
  change (S 3999) with 4000%nat in Hne.
  split; [| split].
  - intros s Hin. apply running_extrema_enclose. exact Hin.
  - apply scale_basis_range; assumption.
  - pose proof (scale_basis_range _ AxisX Hl Hne) as Hx.
    pose proof (scale_basis_range _ AxisY Hl Hne) as Hy.
    pose proof (scale_basis_range _ AxisZ Hl Hne) as Hz.
    lia.
Qed.

Lemma conversions_exact_of_samples (l : list (arr3 Z)) (jj : axis) :
  Forall (fun s => forall jj, is_int16 (get s jj)) l ->
  exists bias total three basis : spec_float,
    get (hard_iron
           (fst (fold_left extrema_update l (mag_max_init, mag_min_init)))
           (snd (fold_left extrema_update l (mag_max_init, mag_min_init))))
        jj = F32.mul bias lit_0_0015f /\
    get (soft_iron
           (fst (fold_left extrema_update l (mag_max_init, mag_min_init)))
           (snd (fold_left extrema_update l (mag_max_init, mag_min_init))))
        jj = F32.div (F32.div total three) basis /\
    represents bias (bias_counts l jj) /\
    represents total
      (half_range l AxisX + half_range l AxisY + half_range l AxisZ) /\
    represents three 3 /\
    represents basis (half_range l jj).
Proof.
  intros Hl.
  destruct (calibration_conversions_exact l jj Hl) as (Hb & Hh & Ht).
  exists (F32.of_int (bias_counts l jj)).
  exists (F32.of_int (half_range l AxisX + half_range l AxisY
                      + half_range l AxisZ)).
  exists (F32.of_int 3).
  exists (F32.of_int (half_range l jj)).
  split; [apply hard_iron_of_samples; exact Hl |].
  split; [apply soft_iron_of_samples; exact Hl |].
  split; [exact Hb |]. split; [exact Ht |]. split; [| exact Hh].
  apply of_int_exact. change (2 ^ 24) with 16777216. lia.
Qed.

(** X10: the integers lis2mdl_offset_bias converts to float are converted
    without rounding: every hard-iron offset is the float product of 0.0015f
    and a float that is exactly the bias in counts, and every soft-iron scale
    is the float quotient of avg_rad, itself the quotient by 3.0f of a float
    that is exactly the sum of the three scale bases, by a float that is
    exactly the scale basis of the axis. *)
Theorem calibration_conversions_are_exact
    (D : Type) (bus : WireBus D) (map : RegisterMap) (w : world D)
    (jj : axis) :
  let l := samples 4000 (dev w) in
  exists bias total three basis : spec_float,
    get (fst (fst (lis2mdl_offset_bias w))) jj = F32.mul bias lit_0_0015f /\
    get (snd (fst (lis2mdl_offset_bias w))) jj =
      F32.div (F32.div total three) basis /\
    represents bias (bias_counts l jj) /\
    represents total
      (half_range l AxisX + half_range l AxisY + half_range l AxisZ) /\
    represents three 3 /\
    represents basis (half_range l jj).
Proof.
  cbv zeta. rewrite offset_bias_eq. cbv zeta. cbn [fst snd].
  apply conversions_exact_of_samples. apply samples_range.
Qed.

Lemma all_from_spec (P : Z -> bool) (n : nat) :
  forall z, all_from n z P = true ->
  forall i, z <= i < z + Z.of_nat n -> P i = true.
Proof.
  induction n as [| n IH]; intros z Hall i Hi.
  - lia.
  - cbn [all_from] in Hall. apply andb_true_iff in Hall.
    destruct Hall as [Hz Hrest].
    destruct (Z.eq_dec i z) as [-> | Hne]; [exact Hz |].
    apply (IH (z + 1) Hrest). lia.
Qed.

Lemma every_offset_in_range :
  all_from (Z.to_nat 65535) (-32767) offset_in_range = true.
Proof. vm_compute. reflexivity. Qed.

Lemma offset_in_range_spec (b : Z) :
  -32767 <= b <= 32767 ->
  is_finite (F32.mul (F32.of_int b) lit_0_0015f) = true /\
  SFleb (SFabs (F32.mul (F32.of_int b) lit_0_0015f)) (F32.of_int 50) = true.
Proof.
  intros Hb.
  pose proof (all_from_spec offset_in_range (Z.to_nat 65535) (-32767)
                every_offset_in_range b) as Hin.
  rewrite Z2Nat.id in Hin by lia.
  apply andb_true_iff. apply Hin. lia.
Qed.

Lemma bias_counts_range (l : list (arr3 Z)) (jj : axis) :
  Forall (fun s => forall jj, is_int16 (get s jj)) l ->
  -32767 <= bias_counts l jj <= 32767.
Proof.
  intros Hl. unfold bias_counts.
  pose proof (axis_max_range l jj Hl) as Hmax.
  pose proof (axis_min_range l jj Hl) as Hmin.
  assert (-32767 <= axis_max l jj).
  { unfold axis_max. apply fold_max_ge_init. }
  unfold is_int16 in *. Z.to_euclidean_division_equations. lia.
Qed.

(** X11: the hard-iron offsets lis2mdl_offset_bias returns are always
    finite floats of magnitude at most 50, whatever the bus returned: the bias
    in counts is within -32767..32767 and its product with 0.0015f cannot
    overflow (unlike the soft-iron scales, which can be infinite or NaN). *)
Theorem hard_iron_offsets_are_finite
    (D : Type) (bus : WireBus D) (map : RegisterMap) (w : world D)
    (jj : axis) :
  -32767 <= bias_counts (samples 4000 (dev w)) jj <= 32767 /\
  is_finite (get (fst (fst (lis2mdl_offset_bias w))) jj) = true /\
  SFleb (SFabs (get (fst (fst (lis2mdl_offset_bias w))) jj)) (F32.of_int 50)
    = true.
Proof.
  pose proof (bias_counts_range (samples 4000 (dev w)) jj
                (samples_range 4000 (dev w))) as Hb.
  split; [exact Hb |].
  rewrite offset_bias_dest1.
  apply offset_in_range_spec. exact Hb.
Qed.

Lemma total_delay_app (l1 l2 : list event) :
  total_delay (l1 ++ l2) = total_delay l1 + total_delay l2.
Proof.
  unfold total_delay. induction l1 as [| e l1 IH]; cbn [app fold_right].
  - reflexivity.
  - destruct e; rewrite IH; lia.
Qed.

Lemma total_delay_pass (map : RegisterMap) (n : nat) (ms : Z) :
  total_delay (pass_events n ms) = Z.of_nat n * ms.
Proof.
  unfold pass_events. induction n as [| n IH].
  - reflexivity.
  - cbn [repeat concat]. rewrite total_delay_app, IH.
    rewrite Nat2Z.inj_succ. unfold total_delay, outx_event.
    cbn [fold_right]. lia.
Qed.

(** X13: a run of lis2mdl_offset_bias blocks in delay for 52000 ms in all:
    4000 ms before the first sample and 12 ms after each of the 4000
    samples. *)
Theorem calibration_waits_52_seconds
    (D : Type) (bus : WireBus D) (map : RegisterMap) (w : world D) :
  exists evs,
    log (snd (lis2mdl_offset_bias w)) = log w ++ evs /\
    total_delay evs = 52000.
Proof.
  exists calibration_events. split.
  - rewrite offset_bias_world. reflexivity.
  - unfold calibration_events. rewrite !total_delay_app, total_delay_pass.
    replace (Z.of_nat 4000) with 4000 by (rewrite <- (Z2Nat.id 4000); [f_equal | lia]).
    reflexivity.
Qed.

Lemma extrema_update_swap (st : arr3 Z * arr3 Z) (s t : arr3 Z) :
  extrema_update (extrema_update st s) t =
  extrema_update (extrema_update st t) s.
Proof.
  destruct st as [mx mn]. rewrite !extrema_update_eq. cbn [a0 a1 a2].
  f_equal; f_equal; lia.
Qed.

Lemma running_extrema_permutation (l l' : list (arr3 Z)) :
  Permutation l l' ->
  forall st, fold_left extrema_update l st = fold_left extrema_update l' st.
Proof.
  induction 1 as [| x l l' Hperm IH | x y l | l l' l'' H1 IH1 H2 IH2];
    intros st; cbn [fold_left].
  - reflexivity.
  - apply IH.
  - rewrite extrema_update_swap. reflexivity.
  - rewrite IH1. apply IH2.
Qed.

(** X12: what the calibration computes does not depend on the order in
    which the samples arrive: two sample sequences that are permutations of
    each other leave the sampling loop with the same extrema, hence give the
    same hard-iron offsets and the same soft-iron scales. *)
Theorem calibration_ignores_sample_order (l l' : list (arr3 Z)) :
  Permutation l l' ->
  let st := fold_left extrema_update l (mag_max_init, mag_min_init) in
  let st' := fold_left extrema_update l' (mag_max_init, mag_min_init) in
  st = st' /\
  hard_iron (fst st) (snd st) = hard_iron (fst st') (snd st') /\
  soft_iron (fst st) (snd st) = soft_iron (fst st') (snd st').
Proof.
  intros Hperm. cbv zeta.
  rewrite (running_extrema_permutation l l' Hperm).
  repeat split.
Qed.

Lemma calibration_ignores_sample_order_witness :
  hard_iron
    (fst (fold_left extrema_update [mk3 100 0 7; mk3 (-50) 3 0]
            (mag_max_init, mag_min_init)))
    (snd (fold_left extrema_update [mk3 100 0 7; mk3 (-50) 3 0]
            (mag_max_init, mag_min_init))) =
  hard_iron
    (fst (fold_left extrema_update [mk3 (-50) 3 0; mk3 100 0 7]
            (mag_max_init, mag_min_init)))
    (snd (fold_left extrema_update [mk3 (-50) 3 0; mk3 100 0 7]
            (mag_max_init, mag_min_init))).
Proof.
  apply (calibration_ignores_sample_order
           [mk3 100 0 7; mk3 (-50) 3 0] [mk3 (-50) 3 0; mk3 100 0 7]).
  apply perm_swap.
Defined.

(** ** The self test *)

Lemma fold_add_bounds (l : list Z) :
  Forall (fun v => -32768 <= v <= 32767) l ->
  forall acc,
    acc - 32768 * Z.of_nat (length l) <= fold_left Z.add l acc
    <= acc + 32767 * Z.of_nat (length l).
Proof.
  induction 1 as [| v l Hv Hl IH]; intros acc; cbn [fold_left length].
  - lia.
  - specialize (IH (acc + v)). rewrite Nat2Z.inj_succ. lia.
Qed.

Lemma axis_sum_bounds (l : list (arr3 Z)) (jj : axis) :
  Forall (fun s => forall jj, is_int16 (get s jj)) l ->
  - 32768 * Z.of_nat (length l) <= axis_sum l jj
  <= 32767 * Z.of_nat (length l).
Proof.
  intros Hl. unfold axis_sum.
  pose proof (fold_add_bounds _ (axis_values_range l jj Hl) 0) as Hb.
  rewrite length_map in Hb. lia.
Qed.

Lemma pass_sum_exact (l : list (arr3 Z)) (jj : axis) :
  Forall (fun s => forall jj, is_int16 (get s jj)) l ->
  length l = 50%nat ->
  -1638400 <= get (sums l) jj <= 1638350 /\
  represents (F32.of_int (get (sums l) jj)) (get (sums l) jj).
Proof.
  intros Hl Hlen.
  pose proof (axis_sum_bounds l jj Hl) as Hb. rewrite Hlen in Hb.
  assert (Hs : get (sums l) jj = axis_sum l jj) by (destruct jj; reflexivity).
  rewrite Hs. split; [lia |].
  apply of_int_exact. change (2 ^ 24) with 16777216. lia.
Qed.

(** X14: in either sampling loop of lis2mdl_self_test the int32_t
    accumulators do not wrap: after the 50 iterations each sum is the plain
    integer sum of the 50 samples of its axis, within -1638400..1638350, and
    its conversion to float for the mean is exact. *)
Theorem self_test_sums_are_exact
    (D : Type) (bus : WireBus D) (map : RegisterMap) (w : world D)
    (jj : axis) :
  fst (for_loop 50 self_test_body (mk3 0 0 0) w) = sums (samples 50 (dev w)) /\
  -1638400 <= get (sums (samples 50 (dev w))) jj <= 1638350 /\
  represents (F32.of_int (get (sums (samples 50 (dev w))) jj))
             (get (sums (samples 50 (dev w))) jj).
Proof.
  split.
  - rewrite (sampling_loop self_test_body add_sample 50 self_test_body_eq).
    cbn [fst]. apply pass_sums.
  - apply pass_sum_exact; [apply samples_range | apply samples_length].
Qed.

(** X15: a run of lis2mdl_self_test blocks in delay for 7200 ms in all: 50 ms
    after each of the 100 samples, 100 ms after each of the two writes of the
    control register and 2000 ms after the report. *)
Theorem self_test_waits_7200_ms
    (D : Type) (bus : WireBus D) (map : RegisterMap) (w : world D) :
  exists evs,
    log (snd (lis2mdl_self_test w)) = log w ++ evs /\
    total_delay evs = 7200.
Proof.
  rewrite self_test_eq. cbn [snd log]. eexists. split; [reflexivity |].
  unfold self_test_traffic. rewrite !total_delay_app, !total_delay_pass.
  reflexivity.
Qed.

(** X16: on a device whose registers form a register file, with the
    control register at a single-read address, lis2mdl_self_test takes its
    baseline samples with the control register as it found it and its
    excited samples with the register holding that byte with bit 1 set: the
    register does not change during either pass, and no other register is
    changed by the whole test. *)
Theorem self_test_samples_under_the_right_mode
    (D : Type) (bus : WireBus D) (map : RegisterMap) (w : world D)
    (reg : D -> Z -> Z) :
  register_file reg ->
  Z.testbit (u8 LIS2MDL_CFG_REG_C) 7 = false ->
  let c := reg (dev w) (u8 LIS2MDL_CFG_REG_C) in
  (forall k, (k <= 50)%nat ->
     reg (dev_after_reads k (dev w)) (u8 LIS2MDL_CFG_REG_C) = c) /\
  (forall k, (k <= 50)%nat ->
     reg (dev_after_reads k (self_test_excited (dev w)))
         (u8 LIS2MDL_CFG_REG_C) = u8 (Z.lor c 0x02)) /\
  Z.testbit (u8 (Z.lor c 0x02)) 1 = true /\
  (forall r, r <> u8 LIS2MDL_CFG_REG_C ->
     reg (dev (snd (lis2mdl_self_test w))) r = reg (dev w) r) /\
  log (snd (lis2mdl_self_test w)) =
    log w ++ self_test_traffic (dev w)
    ++ report_events
         (axis_delta (samples 50 (dev w))
            (samples 50 (self_test_excited (dev w))) AxisX)
         (axis_delta (samples 50 (dev w))
            (samples 50 (self_test_excited (dev w))) AxisX)
         (axis_delta (samples 50 (dev w))
            (samples 50 (self_test_excited (dev w))) AxisY).
Proof.
  intros Hfile Hbit. cbv zeta.
  assert (Hc : self_test_c (dev w) = reg (dev w) (u8 LIS2MDL_CFG_REG_C)).
  { unfold self_test_c. rewrite (reg_read_value reg Hfile) by exact Hbit.
    apply (reads_keep reg Hfile). }
  split; [| split; [| split; [| split]]].
  - intros k _. apply (reads_keep reg Hfile).
  - intros k _. rewrite (reads_keep reg Hfile).
    unfold self_test_excited. rewrite (reg_write_spec reg Hfile).
    rewrite Z.eqb_refl, Hc. reflexivity.
  - rewrite (set_bit _ 1 1) by lia. apply orb_true_r.
  - intros r Hr. rewrite self_test_eq. cbn [snd dev].
    unfold self_test_final. rewrite (reg_write_spec reg Hfile).
    destruct (Z.eqb_spec r (u8 LIS2MDL_CFG_REG_C)) as [-> | _];
      [congruence |].
    rewrite (reads_keep reg Hfile).
    unfold self_test_excited. rewrite (reg_write_spec reg Hfile).
    destruct (Z.eqb_spec r (u8 LIS2MDL_CFG_REG_C)) as [-> | _];
      [congruence |].
    rewrite (reg_read_keeps reg Hfile). apply (reads_keep reg Hfile).
  - rewrite self_test_eq. reflexivity.
Qed.

Lemma self_test_samples_under_the_right_mode_witness :
  u8 (regs (dev_after_reads (H := script_bus) (H0 := datasheet_map) 50
              (self_test_excited (H := script_bus) (H0 := datasheet_map)
                 (dev Scenario.uneven_response))) 0x62) = 0x13.
Proof.
  apply (proj1 (proj2
           (self_test_samples_under_the_right_mode script script_bus
              datasheet_map Scenario.uneven_response
              (fun d r => u8 (regs d r)) script_register_file eq_refl))
           50%nat).
  lia.
Defined.

Lemma every_unit_scale :
  all_from (Z.to_nat 32767) 1 unit_scale = true.
Proof. vm_compute. reflexivity. Qed.

Lemma float_eqb_eq (x y : spec_float) : float_eqb x y = true -> x = y.
Proof.
  destruct x as [a | a | | a m e], y as [b | b | | b n f]; cbn [float_eqb];
    try discriminate; intros Heq.
  - apply eqb_prop in Heq. congruence.
  - apply eqb_prop in Heq. congruence.
  - reflexivity.
  - apply andb_true_iff in Heq. destruct Heq as [Heq He].
    apply andb_true_iff in Heq. destruct Heq as [Ha Hm].
    apply eqb_prop in Ha. apply Pos.eqb_eq in Hm. apply Z.eqb_eq in He.
    congruence.
Qed.

Lemma unit_scale_spec (s : Z) :
  1 <= s <= 32767 ->
  F32.div (F32.div (F32.of_int (s + s + s)) (F32.of_int 3)) (F32.of_int s) =
  F32.of_int 1.
Proof.
  intros Hs. apply float_eqb_eq.
  pose proof (all_from_spec unit_scale (Z.to_nat 32767) 1 every_unit_scale s)
    as Hin.
  rewrite Z2Nat.id in Hin by lia. apply Hin. lia.
Qed.

(** X17: when the three axes have the same positive scale basis (the
    response is a sphere), lis2mdl_offset_bias's soft-iron computation gives
    the scale 1.0f on every axis, exactly: avg_rad is then the common basis
    without rounding. *)
Theorem equal_ranges_give_unit_scale (mag_max mag_min : arr3 Z) (s : Z) :
  (forall k, is_int16 (get mag_max k)) ->
  (forall k, is_int16 (get mag_min k)) ->
  1 <= s ->
  (forall k, Z.quot (get mag_max k - get mag_min k) 2 = s) ->
  soft_iron mag_max mag_min = mk3 (F32.of_int 1) (F32.of_int 1) (F32.of_int 1).
Proof.
  intros Hx Hn Hs Heq.
  assert (Hle : s <= 32767).
  { pose proof (Heq AxisX) as H0. pose proof (Hx AxisX) as H1.
    pose proof (Hn AxisX) as H2. unfold is_int16 in H1, H2.
    revert H0. Z.to_euclidean_division_equations. lia. }
  assert (Hget : forall k, get (soft_iron mag_max mag_min) k = F32.of_int 1).
  { intros k. rewrite soft_iron_get by assumption.
    rewrite average_radius_eq by assumption.
    pose proof (Heq AxisX) as H0. pose proof (Heq AxisY) as H1.
    pose proof (Heq AxisZ) as H2. cbn [get] in H0, H1, H2.
    rewrite H0, H1, H2, (Heq k). apply unit_scale_spec. lia. }
  pose proof (Hget AxisX) as G0. pose proof (Hget AxisY) as G1.
  pose proof (Hget AxisZ) as G2.
  destruct (soft_iron mag_max mag_min) as [x y z].
  cbn [get a0 a1 a2] in G0, G1, G2. rewrite G0, G1, G2. reflexivity.
Qed.

Lemma equal_ranges_give_unit_scale_witness :
  soft_iron (mk3 100 250 (-30)) (mk3 (-100) 50 (-230)) =
  mk3 (F32.of_int 1) (F32.of_int 1) (F32.of_int 1).
Proof.
  apply (equal_ranges_give_unit_scale
           (mk3 100 250 (-30)) (mk3 (-100) 50 (-230)) 100).
  - intros k; destruct k; unfold is_int16; cbn; lia.
  - intros k; destruct k; unfold is_int16; cbn; lia.
  - lia.
  - intros k; destruct k; reflexivity.
Defined.
